(** * Two utility scripts of the PyTorch tree

    - [tools/aten_docgen.py]: loads the parsed operator definitions, keeps
      the operators tagged [canonical] and prints tables about them;
    - [torch/ao/quantization/backend_config/executorch.py]: builds the
      quantization [BackendConfig] of the Executorch stack.

    The development first embeds both files (Part I), then proves facts
    about the embedding (Part II). *)

From Stdlib Require Import List String ZArith QArith Bool Lia.
Import ListNotations.
Local Open Scope string_scope.
Local Open Scope list_scope.

(* ===================================================================== *)
(** * Part I. The embedding                                               *)
(* ===================================================================== *)

(** ** Python dictionaries

    A [dict] keeps its keys in insertion order; assigning to a key that is
    already present replaces the value and leaves the key where it was.
    Both scripts iterate over [.values()], so the order is kept: a
    dictionary is a list of pairs without repeated keys. *)

Module PyDict.

Definition t (K V : Type) : Type := list (K * V).

Section Dict.
Context {K V : Type}.
Variable K_eq_dec : forall x y : K, {x = y} + {x <> y}.

Definition empty : t K V := [].

(** [d[k] = v] *)
Fixpoint setitem (k : K) (v : V) (d : t K V) : t K V :=
  match d with
  | [] => [(k, v)]
  | (k', v') :: d' =>
      if K_eq_dec k k' then (k', v) :: d' else (k', v') :: setitem k v d'
  end.

(** [d.get(k)] *)
Fixpoint lookup (k : K) (d : t K V) : option V :=
  match d with
  | [] => None
  | (k', v') :: d' => if K_eq_dec k k' then Some v' else lookup k d'
  end.

(** [k in d] *)
Definition contains (k : K) (d : t K V) : bool :=
  match lookup k d with Some _ => true | None => false end.

End Dict.

(** [d.keys()], [d.values()] *)
Definition keys {K V : Type} (d : t K V) : list K := map fst d.
Definition values {K V : Type} (d : t K V) : list V := map snd d.

End PyDict.

(** ** Effects

    What a run of either file does besides computing values: it calls
    constructors, reads files and writes to standard output.  A computation
    takes the state it runs in and gives back its result ([None] when an
    exception escaped), the state it leaves and the events it performed,
    oldest first. *)

Inductive Class : Type :=
| cls_DTypeWithConstraints
| cls_DTypeConfig
| cls_BackendPatternConfig
| cls_BackendConfig
| cls_Dialect.

Definition Class_eq_dec (x y : Class) : {x = y} + {x <> y}.
Proof. decide equality. Defined.

Inductive Event (Out : Type) : Type :=
| EvNew (c : Class)          (* a constructor call [C(...)] *)
| EvRead (path : string)     (* a file opened for reading *)
| EvPrint (o : Out).         (* one call of [print] *)

Arguments EvNew {Out} c.
Arguments EvRead {Out} path.
Arguments EvPrint {Out} o.

(** Whether a run with events [t] called the constructor of class [c]. *)
Definition constructs {Out : Type} (c : Class) (t : list (Event Out)) : bool :=
  existsb (fun e => match e with
                    | EvNew c' => if Class_eq_dec c c' then true else false
                    | _ => false
                    end) t.

Definition M (Out St A : Type) : Type := St -> option A * St * list (Event Out).

Section Monad.
Context {Out St : Type}.

Definition ret {A : Type} (a : A) : M Out St A :=
  fun s => (Some a, s, []).

Definition bind {A B : Type} (m : M Out St A) (k : A -> M Out St B) : M Out St B :=
  fun s =>
    match m s with
    | (Some a, s1, t1) =>
        match k a s1 with
        | (r, s2, t2) => (r, s2, t1 ++ t2)
        end
    | (None, s1, t1) => (None, s1, t1)
    end.

(** [raise]: the computation stops here. *)
Definition raise {A : Type} : M Out St A :=
  fun s => (None, s, []).

Definition emit (e : Event Out) : M Out St unit :=
  fun s => (Some tt, s, [e]).

(** Reading a module-level name. *)
Definition global {A : Type} (f : St -> A) : M Out St A :=
  fun s => (Some (f s), s, []).

(** A framework call that may raise and has no effect of its own. *)
Definition lift {A : Type} (o : option A) : M Out St A :=
  fun s => (o, s, []).

(** [for x in xs: acc = body(acc, x)] *)
Fixpoint for_in {X A : Type} (xs : list X) (body : A -> X -> M Out St A)
    (acc : A) : M Out St A :=
  match xs with
  | [] => ret acc
  | x :: xs' => bind (body acc x) (for_in xs' body)
  end.

Definition result {A : Type} (m : M Out St A) (s : St) : option A :=
  fst (fst (m s)).
Definition final_state {A : Type} (m : M Out St A) (s : St) : St :=
  snd (fst (m s)).
Definition trace {A : Type} (m : M Out St A) (s : St) : list (Event Out) :=
  snd (m s).

(** [m] leaves every state as it found it, and every event it performs is
    one of [P]. *)
Definition frames {A : Type} (P : Event Out -> Prop) (m : M Out St A) : Prop :=
  forall s, final_state m s = s /\ Forall P (trace m s).

End Monad.

Notation "x <- m ;; k" := (bind m (fun x => k))
  (at level 61, m at next level, right associativity).
Notation "m ;; k" := (bind m (fun _ => k))
  (at level 61, right associativity).
Notation "x |> f" := (f x) (at level 50, left associativity, only parsing).

(* ===================================================================== *)
(** ** torch/ao/quantization/backend_config/executorch.py                 *)
(* ===================================================================== *)

Module Executorch.

(** *** Framework objects the file names

    Classes and functions of [torch] are compared by identity; each one the
    file refers to is a constant here.  [F] is [torch.nn.functional], [nn]
    is [torch.nn], [nnqat] is [torch.nn.qat], [nnqr] is
    [torch.nn.quantized._reference]. *)

Inductive TorchObj : Type :=
| torch_nn_Linear
| torch_nn_functional_linear
| nnqr_Linear
| nnqat_Linear
| torch_nn_ReLU
| F_relu
| F_relu6
| F_adaptive_avg_pool2d
| torch_nn_AdaptiveAvgPool2d
| torch_squeeze
| operator_add
| torch_add
| nn_BatchNorm2d
| torch_cat
| nn_Conv2d
| F_conv2d
| nnqr_Conv2d
| nnqat_Conv2d
| nni_ConvReLU2d
| nniqat_ConvReLU2d.

Definition TorchObj_eq_dec (x y : TorchObj) : {x = y} + {x <> y}.
Proof. decide equality. Defined.

Inductive dtype : Type := quint8 | qint8 | float | float16.

(** A Python number.  A float is kept as the rational it denotes; the only
    float of this file, [2 ** -12], is a power of two and is represented
    exactly by the machine. *)
Inductive PyNum : Type :=
| PyInt (z : Z)
| PyFloat (q : Q).

(** [b ** e] on two ints: an int for [e >= 0], a float otherwise. *)
Definition py_pow (b e : Z) : PyNum :=
  if (e <? 0)%Z then PyFloat (Qpower (inject_Z b) e) else PyInt (b ^ e)%Z.

Inductive ObservationType : Type :=
| OUTPUT_USE_DIFFERENT_OBSERVER_AS_INPUT
| OUTPUT_SHARE_OBSERVER_WITH_INPUT.

(** A pattern is a callable, a method name, or a tuple of two patterns. *)
Inductive Pattern : Type :=
| PObj (o : TorchObj)
| PStr (s : string)
| PTuple (a b : Pattern).

Definition Pattern_eq_dec (x y : Pattern) : {x = y} + {x <> y}.
Proof. decide equality; [apply TorchObj_eq_dec | apply string_dec]. Defined.

(** The value of [_reverse_sequential_wrapper2(m)]: a fuser function made
    from the fused module class [m]. *)
Inductive FuserMethod : Type :=
| _reverse_sequential_wrapper2 (m : TorchObj).

(** Modelled from the spec: [_Conv2dMetadata] is declared in
    [_common_operator_config_utils.py], which is not among the sources. It
    is the framework's record of the classes and functions of 2-d
    convolution; the fields this file reads are given the framework objects
    they are named after. *)
Record _ConvMetadata : Type := {
  root : TorchObj;
  reference : TorchObj;
  fused_conv_relu : TorchObj;
  qat : TorchObj;
  relu_qat : TorchObj;
  func : TorchObj
}.

Definition _Conv2dMetadata : _ConvMetadata := {|
  root := nn_Conv2d;
  reference := nnqr_Conv2d;
  fused_conv_relu := nni_ConvReLU2d;
  qat := nnqat_Conv2d;
  relu_qat := nniqat_ConvReLU2d;
  func := F_conv2d
|}.

(** *** The framework's configuration classes

    Modelled from the spec: [DTypeWithConstraints], [DTypeConfig],
    [BackendPatternConfig] and [BackendConfig] are declared in
    [backend_config.py], which is not among the sources.  They are the
    framework-native configuration objects; each setter stores its argument
    in the field of its name and returns the object. *)

Record DTypeWithConstraints : Type := {
  dtype_of : option dtype;
  quant_min_lower_bound : option PyNum;
  quant_max_upper_bound : option PyNum;
  scale_min_lower_bound : option PyNum;
  scale_max_upper_bound : option PyNum
}.

(** An argument [input_dtype=], [output_dtype=] or [weight_dtype=]: a bare
    [torch.dtype] or a [DTypeWithConstraints]. *)
Inductive DTypeArg : Type :=
| Bare (d : dtype)
| Constrained (c : DTypeWithConstraints).

Definition with_constraints (a : option DTypeArg) : DTypeWithConstraints :=
  match a with
  | Some (Constrained c) => c
  | Some (Bare d) => {| dtype_of := Some d;
                        quant_min_lower_bound := None;
                        quant_max_upper_bound := None;
                        scale_min_lower_bound := None;
                        scale_max_upper_bound := None |}
  | None => {| dtype_of := None;
               quant_min_lower_bound := None;
               quant_max_upper_bound := None;
               scale_min_lower_bound := None;
               scale_max_upper_bound := None |}
  end.

Record DTypeConfig : Type := {
  input_dtype_with_constraints : DTypeWithConstraints;
  output_dtype_with_constraints : DTypeWithConstraints;
  weight_dtype_with_constraints : DTypeWithConstraints;
  bias_dtype : option dtype;
  is_dynamic : option bool
}.

Record BackendPatternConfig : Type := {
  pattern : Pattern;
  observation_type : ObservationType;
  dtype_configs : list DTypeConfig;
  root_module : option TorchObj;
  qat_module : option TorchObj;
  reference_quantized_module : option TorchObj;
  fused_module : option TorchObj;
  fuser_method : option FuserMethod;
  _num_tensor_args_to_observation_type : PyDict.t Z ObservationType;
  _input_type_to_index : PyDict.t string Z
}.

Record BackendConfig : Type := {
  name : string;
  configs : PyDict.t Pattern BackendPatternConfig
}.

(** [BackendPatternConfig(pattern)] as [__init__] leaves it. *)
Definition BackendPatternConfig__init__ (p : Pattern) : BackendPatternConfig := {|
  pattern := p;
  observation_type := OUTPUT_USE_DIFFERENT_OBSERVER_AS_INPUT;
  dtype_configs := [];
  root_module := None;
  qat_module := None;
  reference_quantized_module := None;
  fused_module := None;
  fuser_method := None;
  _num_tensor_args_to_observation_type := PyDict.empty;
  _input_type_to_index := PyDict.empty
|}.

Definition set_observation_type (v : ObservationType) (c : BackendPatternConfig)
  : BackendPatternConfig := {|
  pattern := pattern c;
  observation_type := v;
  dtype_configs := dtype_configs c;
  root_module := root_module c;
  qat_module := qat_module c;
  reference_quantized_module := reference_quantized_module c;
  fused_module := fused_module c;
  fuser_method := fuser_method c;
  _num_tensor_args_to_observation_type := _num_tensor_args_to_observation_type c;
  _input_type_to_index := _input_type_to_index c
|}.

Definition set_dtype_configs (v : list DTypeConfig) (c : BackendPatternConfig)
  : BackendPatternConfig := {|
  pattern := pattern c;
  observation_type := observation_type c;
  dtype_configs := v;
  root_module := root_module c;
  qat_module := qat_module c;
  reference_quantized_module := reference_quantized_module c;
  fused_module := fused_module c;
  fuser_method := fuser_method c;
  _num_tensor_args_to_observation_type := _num_tensor_args_to_observation_type c;
  _input_type_to_index := _input_type_to_index c
|}.

Definition set_root_module (v : TorchObj) (c : BackendPatternConfig)
  : BackendPatternConfig := {|
  pattern := pattern c;
  observation_type := observation_type c;
  dtype_configs := dtype_configs c;
  root_module := Some v;
  qat_module := qat_module c;
  reference_quantized_module := reference_quantized_module c;
  fused_module := fused_module c;
  fuser_method := fuser_method c;
  _num_tensor_args_to_observation_type := _num_tensor_args_to_observation_type c;
  _input_type_to_index := _input_type_to_index c
|}.

Definition set_qat_module (v : TorchObj) (c : BackendPatternConfig)
  : BackendPatternConfig := {|
  pattern := pattern c;
  observation_type := observation_type c;
  dtype_configs := dtype_configs c;
  root_module := root_module c;
  qat_module := Some v;
  reference_quantized_module := reference_quantized_module c;
  fused_module := fused_module c;
  fuser_method := fuser_method c;
  _num_tensor_args_to_observation_type := _num_tensor_args_to_observation_type c;
  _input_type_to_index := _input_type_to_index c
|}.

Definition set_reference_quantized_module (v : TorchObj) (c : BackendPatternConfig)
  : BackendPatternConfig := {|
  pattern := pattern c;
  observation_type := observation_type c;
  dtype_configs := dtype_configs c;
  root_module := root_module c;
  qat_module := qat_module c;
  reference_quantized_module := Some v;
  fused_module := fused_module c;
  fuser_method := fuser_method c;
  _num_tensor_args_to_observation_type := _num_tensor_args_to_observation_type c;
  _input_type_to_index := _input_type_to_index c
|}.

Definition set_fused_module (v : TorchObj) (c : BackendPatternConfig)
  : BackendPatternConfig := {|
  pattern := pattern c;
  observation_type := observation_type c;
  dtype_configs := dtype_configs c;
  root_module := root_module c;
  qat_module := qat_module c;
  reference_quantized_module := reference_quantized_module c;
  fused_module := Some v;
  fuser_method := fuser_method c;
  _num_tensor_args_to_observation_type := _num_tensor_args_to_observation_type c;
  _input_type_to_index := _input_type_to_index c
|}.

Definition set_fuser_method (v : FuserMethod) (c : BackendPatternConfig)
  : BackendPatternConfig := {|
  pattern := pattern c;
  observation_type := observation_type c;
  dtype_configs := dtype_configs c;
  root_module := root_module c;
  qat_module := qat_module c;
  reference_quantized_module := reference_quantized_module c;
  fused_module := fused_module c;
  fuser_method := Some v;
  _num_tensor_args_to_observation_type := _num_tensor_args_to_observation_type c;
  _input_type_to_index := _input_type_to_index c
|}.

Definition _set_num_tensor_args_to_observation_type
    (v : PyDict.t Z ObservationType) (c : BackendPatternConfig)
  : BackendPatternConfig := {|
  pattern := pattern c;
  observation_type := observation_type c;
  dtype_configs := dtype_configs c;
  root_module := root_module c;
  qat_module := qat_module c;
  reference_quantized_module := reference_quantized_module c;
  fused_module := fused_module c;
  fuser_method := fuser_method c;
  _num_tensor_args_to_observation_type := v;
  _input_type_to_index := _input_type_to_index c
|}.

Definition _set_input_type_to_index (v : PyDict.t string Z) (c : BackendPatternConfig)
  : BackendPatternConfig := {|
  pattern := pattern c;
  observation_type := observation_type c;
  dtype_configs := dtype_configs c;
  root_module := root_module c;
  qat_module := qat_module c;
  reference_quantized_module := reference_quantized_module c;
  fused_module := fused_module c;
  fuser_method := fuser_method c;
  _num_tensor_args_to_observation_type := _num_tensor_args_to_observation_type c;
  _input_type_to_index := v
|}.

(** [BackendConfig(name)] as [__init__] leaves it. *)
Definition BackendConfig__init__ (n : string) : BackendConfig :=
  {| name := n; configs := PyDict.empty |}.

(** [set_backend_pattern_config]: the config is stored under its pattern
    and replaces a config stored under that pattern before. *)
Definition set_backend_pattern_config (c : BackendPatternConfig) (b : BackendConfig)
  : BackendConfig :=
  {| name := name b;
     configs := PyDict.setitem Pattern_eq_dec (pattern c) c (configs b) |}.

(** [set_backend_pattern_configs]: [for conf in configs:
    self.set_backend_pattern_config(conf)]. *)
Definition set_backend_pattern_configs (cs : list BackendPatternConfig)
    (b : BackendConfig) : BackendConfig :=
  fold_left (fun acc c => set_backend_pattern_config c acc) cs b.

(** *** The module's own names

    The eight module-level names bound by lines 28-90.  The functions below
    read them when they are called, so they are the state the functions run
    in. *)

Record Globals : Type := {
  executorch_weighted_op_int8_dtype_config : DTypeConfig;
  executorch_default_op_quint8_dtype_config : DTypeConfig;
  executorch_default_dynamic_int8_dtype_config : DTypeConfig;
  executorch_default_dynamic_float16_dtype_config : DTypeConfig;
  executorch_act_qint8_scale_min_2_neg_12 : DTypeWithConstraints;
  executorch_weight_qint8_neg_127_to_127_scale_min_2_neg_12 : DTypeWithConstraints;
  executorch_weighted_op_qint8_symmetric_dtype_config : DTypeConfig;
  executorch_default_op_qint8_symmetric_dtype_config : DTypeConfig
}.

Section Constructors.
Context {St : Type}.

(** [DTypeWithConstraints(dtype=, quant_min_lower_bound=, ...)]; a keyword
    that is not given is [None]. *)
Definition new_DTypeWithConstraints (dt : option dtype)
    (qmin qmax smin smax : option PyNum) : M string St DTypeWithConstraints :=
  emit (EvNew cls_DTypeWithConstraints) ;;
  ret {| dtype_of := dt;
         quant_min_lower_bound := qmin;
         quant_max_upper_bound := qmax;
         scale_min_lower_bound := smin;
         scale_max_upper_bound := smax |}.

(** [DTypeConfig(input_dtype=, output_dtype=, weight_dtype=, bias_dtype=,
    is_dynamic=)]. *)
Definition new_DTypeConfig (input_dtype output_dtype weight_dtype : option DTypeArg)
    (bias : option dtype) (dynamic : option bool) : M string St DTypeConfig :=
  emit (EvNew cls_DTypeConfig) ;;
  ret {| input_dtype_with_constraints := with_constraints input_dtype;
         output_dtype_with_constraints := with_constraints output_dtype;
         weight_dtype_with_constraints := with_constraints weight_dtype;
         bias_dtype := bias;
         is_dynamic := dynamic |}.

Definition new_BackendPatternConfig (p : Pattern) : M string St BackendPatternConfig :=
  emit (EvNew cls_BackendPatternConfig) ;;
  ret (BackendPatternConfig__init__ p).

Definition new_BackendConfig (n : string) : M string St BackendConfig :=
  emit (EvNew cls_BackendConfig) ;;
  ret (BackendConfig__init__ n).

End Constructors.

(** Lines 28-90: what importing the module binds. *)
Definition module_body : M string unit Globals :=
  weighted_op_int8 <-
    new_DTypeConfig (Some (Bare quint8)) (Some (Bare quint8)) (Some (Bare qint8))
                    (Some float) None ;;
  default_op_quint8 <-
    new_DTypeConfig (Some (Bare quint8)) (Some (Bare quint8)) None None None ;;
  default_dynamic_int8 <-
    new_DTypeConfig (Some (Bare quint8)) (Some (Bare float)) (Some (Bare qint8))
                    (Some float) (Some true) ;;
  default_dynamic_float16 <-
    new_DTypeConfig (Some (Bare float16)) (Some (Bare float)) (Some (Bare float16))
                    (Some float) (Some true) ;;
  act_qint8_scale_min_2_neg_12 <-
    new_DTypeWithConstraints (Some qint8) None None (Some (py_pow 2 (-12))) None ;;
  weight_qint8_neg_127_to_127_scale_min_2_neg_12 <-
    new_DTypeWithConstraints (Some qint8) (Some (PyInt (-127))) (Some (PyInt 127))
                             (Some (py_pow 2 (-12))) None ;;
  weighted_op_qint8_symmetric <-
    new_DTypeConfig (Some (Constrained act_qint8_scale_min_2_neg_12))
                    (Some (Constrained act_qint8_scale_min_2_neg_12))
                    (Some (Constrained weight_qint8_neg_127_to_127_scale_min_2_neg_12))
                    (Some float) None ;;
  default_op_qint8_symmetric <-
    new_DTypeConfig (Some (Constrained act_qint8_scale_min_2_neg_12))
                    (Some (Constrained act_qint8_scale_min_2_neg_12))
                    None None None ;;
  ret {| executorch_weighted_op_int8_dtype_config := weighted_op_int8;
         executorch_default_op_quint8_dtype_config := default_op_quint8;
         executorch_default_dynamic_int8_dtype_config := default_dynamic_int8;
         executorch_default_dynamic_float16_dtype_config := default_dynamic_float16;
         executorch_act_qint8_scale_min_2_neg_12 := act_qint8_scale_min_2_neg_12;
         executorch_weight_qint8_neg_127_to_127_scale_min_2_neg_12 :=
           weight_qint8_neg_127_to_127_scale_min_2_neg_12;
         executorch_weighted_op_qint8_symmetric_dtype_config :=
           weighted_op_qint8_symmetric;
         executorch_default_op_qint8_symmetric_dtype_config :=
           default_op_qint8_symmetric |}.

(** The functions of the module run in the state of its names. *)
Definition Run (A : Type) : Type := M string Globals A.

(** Lines 97-123. *)
Definition _get_linear_configs : Run (list BackendPatternConfig) :=
  let observation_type := OUTPUT_USE_DIFFERENT_OBSERVER_AS_INPUT in
  d1 <- global executorch_weighted_op_qint8_symmetric_dtype_config ;;
  d2 <- global executorch_weighted_op_int8_dtype_config ;;
  d3 <- global executorch_default_dynamic_int8_dtype_config ;;
  d4 <- global executorch_default_dynamic_float16_dtype_config ;;
  let dtype_configs := [d1; d2; d3; d4] in
  let linear_configs := [] in
  (* linear module *)
  c <- new_BackendPatternConfig (PObj torch_nn_Linear) ;;
  let linear_configs := linear_configs ++
    [c |> set_observation_type observation_type
       |> set_dtype_configs dtype_configs
       |> set_root_module torch_nn_Linear
       |> set_reference_quantized_module nnqr_Linear
       |> set_qat_module nnqat_Linear] in
  (* functional linear *)
  c <- new_BackendPatternConfig (PObj torch_nn_functional_linear) ;;
  let linear_configs := linear_configs ++
    [c |> set_observation_type observation_type
       |> set_dtype_configs dtype_configs
       |> _set_input_type_to_index [("weight", 1%Z); ("bias", 2%Z)]] in
  ret linear_configs.

(** Lines 125-180. *)
Definition _get_conv_configs : Run (list BackendPatternConfig) :=
  let observation_type := OUTPUT_USE_DIFFERENT_OBSERVER_AS_INPUT in
  d1 <- global executorch_weighted_op_qint8_symmetric_dtype_config ;;
  d2 <- global executorch_weighted_op_int8_dtype_config ;;
  let dtype_configs := [d1; d2] in
  for_in [_Conv2dMetadata] (fun conv_configs convs =>
    (* conv module *)
    c <- new_BackendPatternConfig (PObj (root convs)) ;;
    let conv_configs := conv_configs ++
      [c |> set_observation_type observation_type
         |> set_dtype_configs dtype_configs
         |> set_root_module (root convs)
         |> set_reference_quantized_module (reference convs)
         |> set_qat_module (qat convs)] in
    (* functional conv *)
    c <- new_BackendPatternConfig (PObj (func convs)) ;;
    let conv_configs := conv_configs ++
      [c |> set_observation_type observation_type
         |> set_dtype_configs dtype_configs
         |> _set_input_type_to_index [("weight", 1%Z); ("bias", 2%Z)]] in
    (* conv module + relu module *)
    c <- new_BackendPatternConfig (PTuple (PObj torch_nn_ReLU) (PObj (root convs))) ;;
    let conv_configs := conv_configs ++
      [c |> set_dtype_configs dtype_configs
         |> set_fuser_method (_reverse_sequential_wrapper2 (fused_conv_relu convs))
         |> set_fused_module (fused_conv_relu convs)] in
    (* conv module + functional relu *)
    c <- new_BackendPatternConfig (PTuple (PObj F_relu) (PObj (root convs))) ;;
    let conv_configs := conv_configs ++
      [c |> set_dtype_configs dtype_configs
         |> set_fuser_method (_reverse_sequential_wrapper2 (fused_conv_relu convs))
         |> set_fused_module (fused_conv_relu convs)] in
    (* fused conv relu module *)
    c <- new_BackendPatternConfig (PObj (fused_conv_relu convs)) ;;
    let conv_configs := conv_configs ++
      [c |> set_observation_type observation_type
         |> set_dtype_configs dtype_configs
         |> set_root_module (root convs)
         |> set_reference_quantized_module (reference convs)
         |> set_qat_module (relu_qat convs)] in
    (* functional conv + relu module *)
    c <- new_BackendPatternConfig (PTuple (PObj torch_nn_ReLU) (PObj (func convs))) ;;
    let conv_configs := conv_configs ++
      [c |> set_observation_type observation_type
         |> set_dtype_configs dtype_configs] in
    (* functional conv + functional relu *)
    c <- new_BackendPatternConfig (PTuple (PObj F_relu) (PObj (func convs))) ;;
    let conv_configs := conv_configs ++
      [c |> set_observation_type observation_type
         |> set_dtype_configs dtype_configs] in
    ret conv_configs) [].

(** Lines 182-204. *)
Definition _get_binary_ops_configs : Run (list BackendPatternConfig) :=
  d1 <- global executorch_default_op_qint8_symmetric_dtype_config ;;
  d2 <- global executorch_weighted_op_int8_dtype_config ;;
  let dtype_configs := [d1; d2] in
  let num_tensor_args_to_observation_type_mapping :=
    [ (0%Z, OUTPUT_USE_DIFFERENT_OBSERVER_AS_INPUT);
      (1%Z, OUTPUT_SHARE_OBSERVER_WITH_INPUT);
      (2%Z, OUTPUT_USE_DIFFERENT_OBSERVER_AS_INPUT) ] in
  for_in [operator_add; torch_add] (fun binary_op_configs op =>
    c <- new_BackendPatternConfig (PObj op) ;;
    ret (binary_op_configs ++
      [c |> set_dtype_configs dtype_configs
         |> _set_num_tensor_args_to_observation_type
              num_tensor_args_to_observation_type_mapping])) [].

(** Lines 206-240. *)
Definition _get_share_qparams_ops_configs : Run (list BackendPatternConfig) :=
  let observation_type := OUTPUT_SHARE_OBSERVER_WITH_INPUT in
  d1 <- global executorch_default_op_qint8_symmetric_dtype_config ;;
  d2 <- global executorch_default_op_quint8_dtype_config ;;
  let dtype_configs := [d1; d2] in
  let share_qparams_ops :=
    [ PObj F_adaptive_avg_pool2d;
      PObj F_relu;
      PObj F_relu6;
      PObj torch_nn_AdaptiveAvgPool2d;
      PObj torch_squeeze;
      PStr "permute";
      PStr "reshape";
      PStr "relu";
      PStr "relu_";
      PStr "squeeze";
      PStr "squeeze_" ] in
  for_in share_qparams_ops (fun share_qparams_op_configs op =>
    c <- new_BackendPatternConfig op ;;
    ret (share_qparams_op_configs ++
      [c |> set_observation_type observation_type
         |> set_dtype_configs dtype_configs])) [].

(** Lines 242-256. *)
Definition _get_bn_configs : Run (list BackendPatternConfig) :=
  let observation_type := OUTPUT_USE_DIFFERENT_OBSERVER_AS_INPUT in
  d1 <- global executorch_default_op_qint8_symmetric_dtype_config ;;
  d2 <- global executorch_default_op_quint8_dtype_config ;;
  let dtype_configs := [d1; d2] in
  let bn_configs := [] in
  c <- new_BackendPatternConfig (PObj nn_BatchNorm2d) ;;
  let bn_configs := bn_configs ++
    [c |> set_observation_type observation_type
       |> set_dtype_configs dtype_configs] in
  ret bn_configs.

(** Lines 258-268. *)
Definition _get_cat_configs : Run (list BackendPatternConfig) :=
  d1 <- global executorch_default_op_qint8_symmetric_dtype_config ;;
  d2 <- global executorch_default_op_quint8_dtype_config ;;
  let dtype_configs := [d1; d2] in
  let cat_configs := [] in
  c <- new_BackendPatternConfig (PObj torch_cat) ;;
  let cat_configs := cat_configs ++
    [c |> set_observation_type OUTPUT_SHARE_OBSERVER_WITH_INPUT
       |> set_dtype_configs dtype_configs] in
  ret cat_configs.

(** Lines 274-284.  Python evaluates the receiver of a call before its
    arguments: the [BackendConfig] is made first, then each group is built
    and set in turn. *)
Definition get_executorch_backend_config : Run BackendConfig :=
  b <- new_BackendConfig "executorch" ;;
  cs <- _get_linear_configs ;;
  let b := set_backend_pattern_configs cs b in
  cs <- _get_conv_configs ;;
  let b := set_backend_pattern_configs cs b in
  cs <- _get_binary_ops_configs ;;
  let b := set_backend_pattern_configs cs b in
  cs <- _get_share_qparams_ops_configs ;;
  let b := set_backend_pattern_configs cs b in
  cs <- _get_bn_configs ;;
  let b := set_backend_pattern_configs cs b in
  cs <- _get_cat_configs ;;
  let b := set_backend_pattern_configs cs b in
  ret b.

(** The names the module has once it is imported. *)
Definition module_globals : option Globals := result module_body tt.

(** The six [DTypeConfig] objects among the module's names. *)
Definition dtype_config_constants (g : Globals) : list DTypeConfig :=
  [ executorch_weighted_op_int8_dtype_config g;
    executorch_default_op_quint8_dtype_config g;
    executorch_default_dynamic_int8_dtype_config g;
    executorch_default_dynamic_float16_dtype_config g;
    executorch_weighted_op_qint8_symmetric_dtype_config g;
    executorch_default_op_qint8_symmetric_dtype_config g ].

(** How the bounds of a [DTypeWithConstraints] are read: a quantized value
    [v] is within them when it is not below the lower bound and not above
    the upper bound, where these are given as ints. *)
Definition within_quant_bounds (c : DTypeWithConstraints) (v : Z) : bool :=
  match quant_min_lower_bound c with
  | Some (PyInt lo) => (lo <=? v)%Z
  | _ => true
  end
  &&
  match quant_max_upper_bound c with
  | Some (PyInt hi) => (v <=? hi)%Z
  | _ => true
  end.

(** The events that are constructor calls. *)
Definition is_new (e : Event string) : Prop :=
  match e with
  | EvNew _ => True
  | _ => False
  end.


(** Importing the module in a fresh interpreter, then one call. *)
Definition import_and_call : M string unit BackendConfig :=
  fun u =>
    match module_body u with
    | (Some g, u', t1) =>
        match get_executorch_backend_config g with
        | (r, _, t2) => (r, u', t1 ++ t2)
        end
    | (None, u', t1) => (None, u', t1)
    end.

End Executorch.

(* ===================================================================== *)
(** ** tools/aten_docgen.py                                               *)
(* ===================================================================== *)

Module AtenDocgen.

(** *** What the script takes from [torchgen]

    [torchgen.model] and [torchgen.gen] are not among the sources.  The
    script only reads attributes of their records and calls their
    functions, so they are parameters: any types and functions of these
    shapes. *)

(** [torchgen.model]: the records, the attributes [f.func], [f.tags] and
    [s.name], and the methods of [FunctionSchema] the script calls. *)
Class Model : Type := {
  OperatorName : Type;
  OperatorName_eq_dec : forall x y : OperatorName, {x = y} + {x <> y};
  FunctionSchema : Type;
  NativeFunction : Type;
  BackendIndices : Type;
  func : NativeFunction -> FunctionSchema;
  tags : NativeFunction -> list string;
  name : FunctionSchema -> OperatorName;
  is_functional_fn : FunctionSchema -> bool;
  signature : FunctionSchema -> FunctionSchema;
  aliased_return_names : FunctionSchema -> list (option string)
}.

(** The attributes the script reads of a [NativeFunctionsGroup]; it tests
    [g.out] and [g.inplace] before it uses them. *)
Record NativeFunctionsGroup {TM : Model} : Type := {
  functional : NativeFunction;
  out : option NativeFunction;
  inplace : option NativeFunction
}.

Record NativeFunctionsViewGroup {TM : Model} : Type := {
  view : NativeFunction;
  view_copy : option NativeFunction;
  view_inplace : option NativeFunction
}.

Record ParsedYaml {TM : Model} : Type := {
  native_functions : list NativeFunction;
  backend_indices : BackendIndices
}.

(** [torchgen.gen]: parsing, as a function of the text of the two files,
    and the two groupings.  Each may raise. *)
Class Gen {TM : Model} : Type := {
  load_native_yaml : string -> string -> option ParsedYaml;
  get_grouped_native_functions :
    list NativeFunction -> option (list (NativeFunction + NativeFunctionsGroup));
  get_grouped_by_view_native_functions :
    list NativeFunction -> option (list (NativeFunction + NativeFunctionsViewGroup))
}.

(** *** The script *)

Section Script.
Context {TM : Model} {TG : Gen}.

(** What the script runs in: the files it can open, and whether the
    [tabulate] library is installed. *)
Record World : Type := {
  files : string -> option string;
  tabulate_installed : bool
}.

(** An entry of a table handed to [tabulate]. *)
Inductive Cell : Type :=
| CName (n : OperatorName)
| CSchema (s : FunctionSchema)
| CNames (l : list (option string))
| CStr (s : string).

(** What one [print] writes: the text [tabulate(table, headers=header)]
    returns, kept as the table it renders, or a line of text. *)
Inductive Out : Type :=
| Table (header : list string) (table : list (list Cell))
| Text (s : string).

Definition Script (A : Type) : Type := M Out World A.

Definition print (o : Out) : Script unit := emit (EvPrint o).

(** Lines 8-13. *)
Definition import_tabulate : Script unit :=
  ok <- global tabulate_installed ;;
  if ok then ret tt
  else print (Text ("`print_tabular` relies on the library `tabulate`, "
                    ++ "which could not be found on this machine. Run `pip "
                    ++ "install tabulate` to install the library.")).

(** A call of [tabulate]: a [NameError] when the import failed. *)
Definition tabulate (table : list (list Cell)) (headers : list string) : Script Out :=
  ok <- global tabulate_installed ;;
  if ok then ret (Table headers table) else raise.

Definition open_read (path : string) : Script string :=
  emit (EvRead path) ;;
  content <- global (fun w => files w path) ;;
  lift content.

(** Modelled from the spec: [parse_native_yaml] of [torchgen.gen] is not
    among the sources.  It loads operator metadata: it reads the tags file
    and the operator-definition file it is given and parses them. *)
Definition parse_native_yaml (path tags_yaml_path : string) : Script ParsedYaml :=
  tags_text <- open_read tags_yaml_path ;;
  text <- open_read path ;;
  lift (load_native_yaml text tags_text).

Record Dialect : Type := {
  self_name : string;
  ops : PyDict.t OperatorName NativeFunction;
  structured_native_functions : PyDict.t OperatorName NativeFunctionsGroup;
  view_groups : PyDict.t OperatorName NativeFunctionsViewGroup;
  _is_functional : bool
}.

(** ["canonical" in function.tags] *)
Definition has_tag (t : string) (function : NativeFunction) : bool :=
  existsb (String.eqb t) (tags function).

(** Lines 27-29. *)
Definition canonical_ops (native_functions : list NativeFunction)
  : PyDict.t OperatorName NativeFunction :=
  fold_left
    (fun ops function =>
       if has_tag "canonical" function
       then PyDict.setitem OperatorName_eq_dec (name (func function)) function ops
       else ops)
    native_functions PyDict.empty.

(** Lines 32-35. *)
Definition structured_of (ops : PyDict.t OperatorName NativeFunction)
    (grouped_native_functions : list (NativeFunction + NativeFunctionsGroup))
  : PyDict.t OperatorName NativeFunctionsGroup :=
  fold_left
    (fun acc g =>
       match g with
       | inr g =>
           if PyDict.contains OperatorName_eq_dec (name (func (functional g))) ops
           then PyDict.setitem OperatorName_eq_dec (name (func (functional g))) g acc
           else acc
       | inl _ => acc
       end)
    grouped_native_functions PyDict.empty.

(** Lines 40-43. *)
Definition view_groups_of (ops : PyDict.t OperatorName NativeFunction)
    (native_functions_with_view_groups :
       list (NativeFunction + NativeFunctionsViewGroup))
  : PyDict.t OperatorName NativeFunctionsViewGroup :=
  fold_left
    (fun acc g =>
       match g with
       | inr g =>
           if PyDict.contains OperatorName_eq_dec (name (func (view g))) ops
           then PyDict.setitem OperatorName_eq_dec (name (func (view g))) g acc
           else acc
       | inl _ => acc
       end)
    native_functions_with_view_groups PyDict.empty.

(** Lines 50-53. *)
Definition functional_flag (ops : PyDict.t OperatorName NativeFunction) : bool :=
  fold_left
    (fun _is_functional op =>
       if negb (is_functional_fn (func op)) then false else _is_functional)
    (PyDict.values ops) true.

(** Lines 16-53: [Dialect(name)]. *)
Definition new_Dialect (name_ : string) : Script Dialect :=
  emit (EvNew cls_Dialect) ;;
  parsed_yaml <- parse_native_yaml "aten/src/ATen/native/native_functions.yaml"
                                   "aten/src/ATen/native/tags.yaml" ;;
  let native_functions := native_functions parsed_yaml in
  let ops := canonical_ops native_functions in
  grouped_native_functions <- lift (get_grouped_native_functions native_functions) ;;
  let structured := structured_of ops grouped_native_functions in
  native_functions_with_view_groups <-
    lift (get_grouped_by_view_native_functions native_functions) ;;
  let views := view_groups_of ops native_functions_with_view_groups in
  ret {| self_name := name_;
         ops := ops;
         structured_native_functions := structured;
         view_groups := views;
         _is_functional := functional_flag ops |}.

(** [x.func.name if x else 'N/A'] *)
Definition name_or_NA (x : option NativeFunction) : Cell :=
  match x with
  | Some f => CName (name (func f))
  | None => CStr "N/A"
  end.

Definition functional_table (self : Dialect) : list (list Cell) :=
  map (fun g => [CName (name (func (functional g)));
                 name_or_NA (out g);
                 name_or_NA (inplace g)])
      (PyDict.values (structured_native_functions self)).

Definition view_table (self : Dialect) : list (list Cell) :=
  map (fun g => [CName (name (func (view g)));
                 name_or_NA (view_copy g);
                 name_or_NA (view_inplace g)])
      (PyDict.values (view_groups self)).

(** Lines 55-69. *)
Definition print_tabular (self : Dialect) : Script unit :=
  let header := ["functional"; "out"; "inplace"] in
  let table := functional_table self in
  t <- tabulate table header ;;
  print t ;;
  print (Text "") ;;
  let header := ["view"; "view_copy"; "view_inplace"] in
  let table := view_table self in
  t <- tabulate table header ;;
  print t.

Definition is_None (x : option string) : bool :=
  match x with None => true | Some _ => false end.

(** Lines 76-79: the row appended for [op]. *)
Definition schema_row (op : NativeFunction) : list Cell :=
  let aliased_return_names_ := aliased_return_names (func op) in
  let cell :=
    if forallb is_None aliased_return_names_
    then CStr "N/A"
    else CNames aliased_return_names_ in
  [CName (name (func op)); CSchema (signature (func op)); cell].

Definition schema_table (self : Dialect) : list (list Cell) :=
  fold_left (fun table op => table ++ [schema_row op])
            (PyDict.values (ops self)) [].

(** Lines 71-81. *)
Definition print_schema (self : Dialect) : Script unit :=
  let header := ["op"; "schema"; "aliased_return_names"] in
  let table := schema_table self in
  t <- tabulate table header ;;
  print t.

(** Lines 83-85. *)
Definition is_functional (self : Dialect) : bool := _is_functional self.

(** [print(b)] for a [bool]. *)
Definition str_bool (b : bool) : string := if b then "True" else "False".

(** The module body: the import of [tabulate] and lines 95-99. *)
Definition main : Script unit :=
  import_tabulate ;;
  d <- new_Dialect "aten" ;;
  print_tabular d ;;
  print_schema d ;;
  print (Text (str_bool (is_functional d))).

(** The two files the script names. *)
Definition native_functions_yaml : string :=
  "aten/src/ATen/native/native_functions.yaml".
Definition tags_yaml : string := "aten/src/ATen/native/tags.yaml".


(** The constructor calls of the script make a [Dialect]. *)
Definition news_only_Dialect (e : Event Out) : Prop :=
  match e with
  | EvNew c => c = cls_Dialect
  | _ => True
  end.

(** The tables a run printed, in order. *)
Definition printed_tables (t : list (Event Out)) : list Out :=
  flat_map (fun e => match e with
                     | EvPrint (Table h r) => [Table h r]
                     | _ => []
                     end) t.

End Script.

(** *** A small instance

    Operator names are strings; a schema is its name, its argument list,
    whether it is functional, and its aliased return names; a native
    function is a schema with tags.  The parser yields the list it is
    instantiated with, whatever the text of the files, and the groupings
    form no group. *)

Record ToySchema : Type := {
  toy_name : string;
  toy_arguments : string;
  toy_functional : bool;
  toy_aliased : list (option string)
}.

Record ToyFunction : Type := {
  toy_func : ToySchema;
  toy_tags : list string
}.

#[local] Instance ToyModel : Model := {|
  OperatorName := string;
  OperatorName_eq_dec := string_dec;
  FunctionSchema := ToySchema;
  NativeFunction := ToyFunction;
  BackendIndices := unit;
  func := toy_func;
  tags := toy_tags;
  name := toy_name;
  is_functional_fn := toy_functional;
  signature := fun s => s;
  aliased_return_names := toy_aliased
|}.

Definition ToyGen (fs : list ToyFunction) : @Gen ToyModel := {|
  load_native_yaml := fun _ _ =>
    Some {| native_functions := fs; backend_indices := tt |};
  get_grouped_native_functions := fun l => Some (map inl l);
  get_grouped_by_view_native_functions := fun l => Some (map inl l)
|}.

Definition toy_world : World := {|
  files := fun _ => Some "";
  tabulate_installed := true
|}.

Definition toy_add : ToyFunction := {|
  toy_func := {| toy_name := "add.Tensor";
                 toy_arguments := "Tensor self, Tensor other, *, Scalar alpha=1";
                 toy_functional := true;
                 toy_aliased := [None] |};
  toy_tags := ["canonical"; "pointwise"]
|}.

Definition toy_add_out : ToyFunction := {|
  toy_func := {| toy_name := "add.out";
                 toy_arguments :=
                   "Tensor self, Tensor other, *, Scalar alpha=1, Tensor(a!) out";
                 toy_functional := false;
                 toy_aliased := [Some "out"] |};
  toy_tags := ["canonical"]
|}.

Definition toy_relu_ : ToyFunction := {|
  toy_func := {| toy_name := "relu_";
                 toy_arguments := "Tensor(a!) self";
                 toy_functional := false;
                 toy_aliased := [Some "self"] |};
  toy_tags := []
|}.

(** A second parsed function named [add.Tensor], with other arguments and
    without the tag. *)
Definition toy_add_untagged : ToyFunction := {|
  toy_func := {| toy_name := "add.Tensor";
                 toy_arguments := "Tensor self, Scalar other";
                 toy_functional := true;
                 toy_aliased := [None] |};
  toy_tags := ["pointwise"]
|}.

Definition toy_functions : list ToyFunction := [toy_add; toy_add_out; toy_relu_].

Definition toy_repeated_name : list ToyFunction := [toy_add; toy_add_untagged].

(** The [Dialect] built from [toy_functions]. *)
Definition toy_dialect : @Dialect ToyModel := {|
  self_name := "aten";
  ops := [("add.Tensor", toy_add); ("add.out", toy_add_out)];
  structured_native_functions := [];
  view_groups := [];
  _is_functional := false
|}.

End AtenDocgen.

(* ===================================================================== *)
(** * Part II. Facts                                                      *)
(* ===================================================================== *)

(** ** Dictionaries *)

Section DictFacts.
Context {K V : Type}.
Variable K_eq_dec : forall x y : K, {x = y} + {x <> y}.

Lemma lookup_setitem_same (k : K) (v : V) (d : PyDict.t K V) :
  PyDict.lookup K_eq_dec k (PyDict.setitem K_eq_dec k v d) = Some v.
Proof.
  induction d as [| [k' v'] d IH]; simpl.
  - destruct (K_eq_dec k k); congruence.
  - destruct (K_eq_dec k k') as [E | N]; simpl.
    + rewrite E. destruct (K_eq_dec k' k'); congruence.
    + destruct (K_eq_dec k k'); [contradiction | exact IH].
Qed.

Lemma lookup_setitem_other (k k0 : K) (v : V) (d : PyDict.t K V) :
  k0 <> k ->
  PyDict.lookup K_eq_dec k0 (PyDict.setitem K_eq_dec k v d)
  = PyDict.lookup K_eq_dec k0 d.
Proof.
  intros N. induction d as [| [k' v'] d IH]; simpl.
  - destruct (K_eq_dec k0 k); [contradiction | reflexivity].
  - destruct (K_eq_dec k k') as [E | N']; simpl.
    + subst k'. destruct (K_eq_dec k0 k); [contradiction | reflexivity].
    + destruct (K_eq_dec k0 k'); [reflexivity | exact IH].
Qed.

Lemma lookup_none_keys (k : K) (d : PyDict.t K V) :
  PyDict.lookup K_eq_dec k d = None <-> ~ In k (PyDict.keys d).
Proof.
  induction d as [| [k' v'] d IH]; simpl.
  - tauto.
  - destruct (K_eq_dec k k') as [E | N].
    + split; [discriminate | intros H; exfalso; apply H; left; congruence].
    + rewrite IH. split.
      * intros H [E | I]; [apply N; congruence | exact (H I)].
      * intros H I. apply H. right. exact I.
Qed.

Lemma contains_keys (k : K) (d : PyDict.t K V) :
  PyDict.contains K_eq_dec k d = true <-> In k (PyDict.keys d).
Proof.
  unfold PyDict.contains.
  destruct (PyDict.lookup K_eq_dec k d) eqn:E.
  - split; [intros _ | reflexivity].
    destruct (in_dec K_eq_dec k (PyDict.keys d)) as [I | N]; [exact I |].
    apply lookup_none_keys in N. congruence.
  - apply lookup_none_keys in E. split; [discriminate | contradiction].
Qed.

(** Assigning to a key that is not there yet appends the entry. *)
Lemma setitem_fresh (k : K) (v : V) (d : PyDict.t K V) :
  ~ In k (PyDict.keys d) -> PyDict.setitem K_eq_dec k v d = d ++ [(k, v)].
Proof.
  induction d as [| [k' v'] d IH]; simpl; intros H.
  - reflexivity.
  - destruct (K_eq_dec k k') as [E | N].
    + exfalso. apply H. left. congruence.
    + rewrite IH; [reflexivity | intros I; apply H; right; exact I].
Qed.

(** Assignment never changes which keys were there, nor their order. *)
Lemma keys_setitem (k : K) (v : V) (d : PyDict.t K V) :
  PyDict.keys (PyDict.setitem K_eq_dec k v d)
  = if in_dec K_eq_dec k (PyDict.keys d)
    then PyDict.keys d else PyDict.keys d ++ [k].
Proof.
  induction d as [| [k' v'] d IH]; simpl.
  - reflexivity.
  - destruct (K_eq_dec k k') as [E | N]; simpl.
    + destruct (K_eq_dec k' k); [reflexivity | congruence].
    + rewrite IH. destruct (K_eq_dec k' k); [congruence |].
      destruct (in_dec K_eq_dec k (PyDict.keys d)); reflexivity.
Qed.

End DictFacts.

(** ** Computations *)

Section MonadFacts.
Context {Out St : Type}.
Variable P : Event Out -> Prop.

Lemma frames_ret {A : Type} (a : A) : frames P (@ret Out St A a).
Proof. intros s. split; [reflexivity | constructor]. Qed.

Lemma frames_raise {A : Type} : frames P (@raise Out St A).
Proof. intros s. split; [reflexivity | constructor]. Qed.

Lemma frames_global {A : Type} (f : St -> A) : frames P (@global Out St A f).
Proof. intros s. split; [reflexivity | constructor]. Qed.

Lemma frames_lift {A : Type} (o : option A) : frames P (@lift Out St A o).
Proof. intros s. split; [reflexivity | constructor]. Qed.

Lemma frames_emit (e : Event Out) : P e -> frames P (@emit Out St e).
Proof.
  intros H s. split; [reflexivity |].
  unfold trace, emit; simpl. constructor; [exact H | constructor].
Qed.

Lemma frames_bind {A B : Type} (m : M Out St A) (k : A -> M Out St B) :
  frames P m -> (forall a, frames P (k a)) -> frames P (bind m k).
Proof.
  intros Hm Hk s. specialize (Hm s).
  unfold final_state, trace, bind in *.
  destruct (m s) as [[[a |] s1] t1]; simpl in *.
  - destruct Hm as [E Ht]. subst s1.
    specialize (Hk a s). unfold final_state, trace in Hk.
    destruct (k a s) as [[r s2] t2]; simpl in *.
    destruct Hk as [E Hk]. split; [exact E |].
    apply Forall_app. split; assumption.
  - exact Hm.
Qed.

Lemma frames_for_in {X A : Type} (xs : list X) (body : A -> X -> M Out St A) :
  (forall acc x, frames P (body acc x)) ->
  forall acc, frames P (for_in xs body acc).
Proof.
  intros Hb. induction xs as [| x xs IH]; intros acc; simpl.
  - apply frames_ret.
  - apply frames_bind; [apply Hb | exact IH].
Qed.

Lemma frames_if {A : Type} (c : bool) (m1 m2 : M Out St A) :
  frames P m1 -> frames P m2 -> frames P (if c then m1 else m2).
Proof. destruct c; auto. Qed.


End MonadFacts.

Create HintDb frame discriminated.
#[export] Hint Resolve frames_ret frames_raise frames_global frames_lift
  frames_emit frames_if : frame.

(** Walks down a computation built from [bind], [for_in] and branches. *)
Ltac frame_step :=
  first
    [ apply frames_bind; [| intros ?]
    | apply frames_for_in; intros ? ?
    | apply frames_if
    | apply frames_ret
    | apply frames_raise
    | apply frames_global
    | apply frames_lift
    | apply frames_emit; simpl; auto ].

Ltac frame := cbv zeta; repeat frame_step.

(* ===================================================================== *)
(** ** executorch.py                                                      *)
(* ===================================================================== *)

Module ExecutorchSpec.
Import Executorch.











(** C1.  In every state of the module's names the call returns a
    [BackendConfig] named ["executorch"]; it is the fresh [BackendConfig]
    on which the results of [_get_linear_configs], [_get_conv_configs],
    [_get_binary_ops_configs], [_get_share_qparams_ops_configs],
    [_get_bn_configs] and [_get_cat_configs] were set, in that order; its
    configs are exactly the configs of these six lists, in that order, each
    stored under its own pattern, and the patterns are pairwise distinct. *)
Theorem get_executorch_backend_config_contents (g : Globals) :
  exists b linear conv binary share bn cat,
    result get_executorch_backend_config g = Some b /\
    result _get_linear_configs g = Some linear /\
    result _get_conv_configs g = Some conv /\
    result _get_binary_ops_configs g = Some binary /\
    result _get_share_qparams_ops_configs g = Some share /\
    result _get_bn_configs g = Some bn /\
    result _get_cat_configs g = Some cat /\
    name b = "executorch" /\
    b = set_backend_pattern_configs cat
          (set_backend_pattern_configs bn
             (set_backend_pattern_configs share
                (set_backend_pattern_configs binary
                   (set_backend_pattern_configs conv
                      (set_backend_pattern_configs linear
                         (BackendConfig__init__ "executorch")))))) /\
    PyDict.values (configs b) = linear ++ conv ++ binary ++ share ++ bn ++ cat /\
    Forall (fun kc => fst kc = pattern (snd kc)) (configs b) /\
    NoDup (PyDict.keys (configs b)).
Proof.
  do 7 eexists.
  repeat match goal with |- _ /\ _ => split end;
    try reflexivity.
  - repeat constructor.
  - cbv -[In]. repeat constructor; simpl; intuition discriminate.
Qed.


(** C9.  In every state of the module's names, every pattern config of
    the returned [BackendConfig] has a [dtype_configs] list that is not
    empty, and each element of the list is one of the six [DTypeConfig]
    objects among the module's names. *)
Theorem dtype_configs_from_constants (g : Globals) :
  exists b,
    result get_executorch_backend_config g = Some b /\
    Forall
      (fun c =>
         dtype_configs c <> [] /\
         Forall (fun d => In d (dtype_config_constants g)) (dtype_configs c))
      (PyDict.values (configs b)).
Proof.
  eexists. split; [reflexivity |].
  cbv -[In dtype_config_constants].
  repeat (apply Forall_cons || apply Forall_nil);
    (split; [discriminate |]);
    repeat (apply Forall_cons || apply Forall_nil);
    unfold dtype_config_constants; simpl; tauto.
Qed.

(** C10.  Once the module is imported,
    [executorch_weight_qint8_neg_127_to_127_scale_min_2_neg_12] is a
    [qint8] with [quant_min_lower_bound = -127],
    [quant_max_upper_bound = 127] and [scale_min_lower_bound] the float
    [1/4096], which is [2^-12]; of the 256 values of an 8-bit signed
    integer exactly [-128] is outside these bounds.  Both symmetric
    [DTypeConfig]s have, as input and as output dtype,
    [executorch_act_qint8_scale_min_2_neg_12], a [qint8] whose
    [scale_min_lower_bound] is that same [2^-12]. *)
Theorem xnnpack_weight_constraints :
  exists g,
    module_globals = Some g /\
    let w := executorch_weight_qint8_neg_127_to_127_scale_min_2_neg_12 g in
    let a := executorch_act_qint8_scale_min_2_neg_12 g in
    let weighted := executorch_weighted_op_qint8_symmetric_dtype_config g in
    let default := executorch_default_op_qint8_symmetric_dtype_config g in
    dtype_of w = Some qint8 /\
    quant_min_lower_bound w = Some (PyInt (-127)) /\
    quant_max_upper_bound w = Some (PyInt 127) /\
    scale_min_lower_bound w = Some (PyFloat (1 # 4096)) /\
    (1 # 4096 == Qpower (inject_Z 2) (-12))%Q /\
    (forall v, (-128 <= v <= 127)%Z ->
               within_quant_bounds w v = negb (v =? -128)%Z) /\
    dtype_of a = Some qint8 /\
    scale_min_lower_bound a = Some (PyFloat (1 # 4096)) /\
    input_dtype_with_constraints weighted = a /\
    output_dtype_with_constraints weighted = a /\
    weight_dtype_with_constraints weighted = w /\
    input_dtype_with_constraints default = a /\
    output_dtype_with_constraints default = a.
Proof.
  eexists. split; [reflexivity |]. cbv zeta.
  repeat match goal with |- _ /\ _ => split end; try reflexivity.
  intros v Hv. unfold within_quant_bounds. simpl.
  destruct (Z.leb_spec (-127) v), (Z.leb_spec v 127), (Z.eqb_spec v (-128));
    simpl; try reflexivity; lia.
Qed.

End ExecutorchSpec.

(* ===================================================================== *)
(** ** aten_docgen.py                                                     *)
(* ===================================================================== *)

Module AtenDocgenSpec.
Import AtenDocgen.

Section ScriptFacts.
Context {TM : Model} {TG : Gen}.

Local Abbreviation op_name f := (name (func f)).
Local Abbreviation canonical := (has_tag "canonical").

(** *** Lines 27-29: [self.ops] *)

(** The loop, started from any dictionary: while the names met are new and
    pairwise distinct, each tagged function is appended under its name. *)
Lemma canonical_loop_distinct (fs : list NativeFunction)
    (acc : PyDict.t OperatorName NativeFunction) :
  NoDup (PyDict.keys acc ++ map (fun f => op_name f) fs) ->
  fold_left
    (fun ops function =>
       if canonical function
       then PyDict.setitem OperatorName_eq_dec (op_name function) function ops
       else ops)
    fs acc
  = acc ++ map (fun f => (op_name f, f)) (filter canonical fs).
Proof.
  revert acc. induction fs as [| f fs IH]; intros acc H; simpl.
  - symmetry. apply app_nil_r.
  - assert (F : ~ In (op_name f) (PyDict.keys acc)).
    { intros I. apply NoDup_remove_2 in H. apply H.
      apply in_or_app. left. exact I. }
    destruct (canonical f) eqn:C.
    + rewrite IH; rewrite (setitem_fresh _ _ _ _ F).
      * simpl. rewrite <- app_assoc. reflexivity.
      * unfold PyDict.keys in *. rewrite map_app, <- app_assoc. exact H.
    + apply IH. apply NoDup_remove_1 in H. exact H.
Qed.

(** Every entry the loop leaves was there before or is a tagged function
    of the list, stored under its own name. *)
Lemma canonical_loop_entries (fs : list NativeFunction)
    (acc : PyDict.t OperatorName NativeFunction) (k : OperatorName)
    (g : NativeFunction) :
  PyDict.lookup OperatorName_eq_dec k
    (fold_left
       (fun ops function =>
          if canonical function
          then PyDict.setitem OperatorName_eq_dec (op_name function) function ops
          else ops)
       fs acc) = Some g ->
  PyDict.lookup OperatorName_eq_dec k acc = Some g \/
  (In g fs /\ op_name g = k /\ canonical g = true).
Proof.
  revert acc. induction fs as [| f fs IH]; intros acc H; simpl in *.
  - left. exact H.
  - apply IH in H. destruct H as [H | [I R]]; [| right; tauto].
    destruct (canonical f) eqn:C; [| left; exact H].
    destruct (OperatorName_eq_dec k (op_name f)) as [E | N].
    + subst k. rewrite lookup_setitem_same in H.
      injection H as <-. right. tauto.
    + rewrite lookup_setitem_other in H by exact N. left. exact H.
Qed.

(** A key the loop has set stays. *)
Lemma canonical_loop_keeps (fs : list NativeFunction)
    (acc : PyDict.t OperatorName NativeFunction) (k : OperatorName) :
  PyDict.contains OperatorName_eq_dec k acc = true ->
  PyDict.contains OperatorName_eq_dec k
    (fold_left
       (fun ops function =>
          if canonical function
          then PyDict.setitem OperatorName_eq_dec (op_name function) function ops
          else ops)
       fs acc) = true.
Proof.
  revert acc. induction fs as [| f fs IH]; intros acc H; simpl.
  - exact H.
  - apply IH. destruct (canonical f); [| exact H].
    unfold PyDict.contains in *.
    destruct (OperatorName_eq_dec k (op_name f)) as [E | N].
    + subst k. rewrite lookup_setitem_same. reflexivity.
    + rewrite lookup_setitem_other by exact N. exact H.
Qed.

(** Without any assumption on the names: a key is in [self.ops] exactly
    when some parsed function of that name is tagged, and what is stored
    under it is such a function. *)
Lemma canonical_ops_keys (fs : list NativeFunction) (k : OperatorName) :
  PyDict.contains OperatorName_eq_dec k (canonical_ops fs) = true <->
  exists f, In f fs /\ op_name f = k /\ canonical f = true.
Proof.
  unfold canonical_ops. split.
  - unfold PyDict.contains.
    destruct (PyDict.lookup _ _ _) as [g |] eqn:E; [intros _ | discriminate].
    apply canonical_loop_entries in E. destruct E as [E | E].
    + discriminate.
    + exists g. exact E.
  - intros [f [I [E C]]]. subst k.
    generalize (@PyDict.empty OperatorName NativeFunction).
    induction fs as [| f' fs IH]; intros acc; simpl; [destruct I |].
    destruct I as [-> | I]; [| apply IH; exact I].
    rewrite C. apply canonical_loop_keeps.
    unfold PyDict.contains. rewrite lookup_setitem_same. reflexivity.
Qed.

Lemma canonical_ops_values (fs : list NativeFunction) (g : NativeFunction) :
  In g (PyDict.values (canonical_ops fs)) ->
  In g fs /\ canonical g = true.
Proof.
  unfold canonical_ops.
  assert (G : forall acc,
             (forall x, In x (PyDict.values acc) -> In x fs /\ canonical x = true) ->
             forall l, incl l fs ->
             In g (PyDict.values
                     (fold_left
                        (fun ops function =>
                           if canonical function
                           then PyDict.setitem OperatorName_eq_dec
                                  (op_name function) function ops
                           else ops) l acc)) ->
             In g fs /\ canonical g = true).
  { intros acc Hacc l. revert acc Hacc.
    induction l as [| f l IH]; intros acc Hacc Hl; simpl.
    - apply Hacc.
    - apply IH; [| intros x Hx; apply Hl; right; exact Hx].
      destruct (canonical f) eqn:C; [| exact Hacc].
      intros x Hx. clear IH.
      induction acc as [| [k' v'] acc IHa]; simpl in Hx.
      + destruct Hx as [<- | []]. split; [apply Hl; left; reflexivity | exact C].
      + destruct (OperatorName_eq_dec (op_name f) k'); simpl in Hx.
        * destruct Hx as [<- | Hx].
          -- split; [apply Hl; left; reflexivity | exact C].
          -- apply Hacc. right. exact Hx.
        * destruct Hx as [<- | Hx].
          -- apply Hacc. left. reflexivity.
          -- apply IHa; [| exact Hx].
             intros y Hy. apply Hacc. right. exact Hy. }
  apply (G PyDict.empty); [intros x [] | apply incl_refl].
Qed.

(** C3, as amended.  When no two parsed functions have the same name,
    [self.ops] is the parsed list filtered by the tag: its entries are the
    tagged functions, in parse order, each under its own name and as the
    parser produced it; so a parsed function's name is a key exactly when
    that function is tagged, and the entry under it is that function. *)
Theorem canonical_ops_is_filter (fs : list NativeFunction) :
  NoDup (map (fun f => op_name f) fs) ->
  canonical_ops fs = map (fun f => (op_name f, f)) (filter canonical fs) /\
  PyDict.values (canonical_ops fs) = filter canonical fs /\
  (forall f, In f fs ->
     (PyDict.contains OperatorName_eq_dec (op_name f) (canonical_ops fs) = true
      <-> canonical f = true)) /\
  (forall f, In f fs -> canonical f = true ->
     PyDict.lookup OperatorName_eq_dec (op_name f) (canonical_ops fs) = Some f).
Proof.
  intros ND.
  assert (E : canonical_ops fs
              = map (fun f => (op_name f, f)) (filter canonical fs)).
  { unfold canonical_ops. rewrite canonical_loop_distinct; [reflexivity | exact ND]. }
  assert (U : forall f f', In f fs -> In f' fs -> op_name f = op_name f' -> f = f').
  { clear E. induction fs as [| x xs IH]; intros f f' I I' N; [destruct I |].
    inversion ND as [| ? ? Hx Hxs]; subst.
    destruct I as [-> | I], I' as [-> | I'].
    - reflexivity.
    - exfalso. apply Hx. rewrite N. apply (in_map (fun f => op_name f)). exact I'.
    - exfalso. apply Hx. rewrite <- N. apply (in_map (fun f => op_name f)). exact I.
    - apply IH; assumption. }
  split; [exact E |].
  split.
  { rewrite E. unfold PyDict.values. rewrite map_map. simpl. apply map_id. }
  split.
  - intros f I. rewrite canonical_ops_keys. split.
    + intros [f' [I' [N C]]]. rewrite <- (U f' f I' I N). exact C.
    + intros C. exists f. tauto.
  - intros f I C.
    assert (H : PyDict.contains OperatorName_eq_dec (op_name f) (canonical_ops fs) = true).
    { apply canonical_ops_keys. exists f. tauto. }
    unfold PyDict.contains in H.
    destruct (PyDict.lookup _ _ _) as [g |] eqn:L; [| discriminate].
    unfold canonical_ops in L. apply canonical_loop_entries in L.
    destruct L as [L | [Ig [N _]]]; [discriminate |].
    rewrite (U g f Ig I N). reflexivity.
Qed.

(** *** Lines 50-53: [self._is_functional] *)

Lemma functional_loop (ops : list NativeFunction) (acc : bool) :
  fold_left
    (fun _is_functional op =>
       if negb (is_functional_fn (func op)) then false else _is_functional)
    ops acc
  = acc && forallb (fun op => is_functional_fn (func op)) ops.
Proof.
  revert acc. induction ops as [| op ops IH]; intros acc; simpl.
  - symmetry. apply andb_true_r.
  - rewrite IH. destruct (is_functional_fn (func op)), acc; reflexivity.
Qed.

Lemma functional_flag_forallb (ops : PyDict.t OperatorName NativeFunction) :
  functional_flag ops
  = forallb (fun op => is_functional_fn (func op)) (PyDict.values ops).
Proof. unfold functional_flag. apply functional_loop. Qed.

(** *** Lines 16-53: what a [Dialect] that was built holds *)

Lemma new_Dialect_inv (n : string) (w : World) (d : Dialect) :
  result (new_Dialect n) w = Some d ->
  exists tags_text text parsed grouped views,
    files w tags_yaml = Some tags_text /\
    files w native_functions_yaml = Some text /\
    load_native_yaml text tags_text = Some parsed /\
    get_grouped_native_functions (native_functions parsed) = Some grouped /\
    get_grouped_by_view_native_functions (native_functions parsed) = Some views /\
    d = {| self_name := n;
           ops := canonical_ops (native_functions parsed);
           structured_native_functions :=
             structured_of (canonical_ops (native_functions parsed)) grouped;
           view_groups :=
             view_groups_of (canonical_ops (native_functions parsed)) views;
           _is_functional :=
             functional_flag (canonical_ops (native_functions parsed)) |}.
Proof.
  unfold result, new_Dialect, parse_native_yaml, open_read, bind, emit,
    global, lift, ret, native_functions_yaml, tags_yaml.
  simpl.
  destruct (files w "aten/src/ATen/native/tags.yaml") as [tags_text |] eqn:Et;
    simpl; [| discriminate].
  destruct (files w "aten/src/ATen/native/native_functions.yaml")
    as [text |] eqn:En; simpl; [| discriminate].
  destruct (load_native_yaml text tags_text) as [parsed |] eqn:Ep;
    simpl; [| discriminate].
  destruct (get_grouped_native_functions (native_functions parsed))
    as [grouped |] eqn:Eg; simpl; [| discriminate].
  destruct (get_grouped_by_view_native_functions (native_functions parsed))
    as [views |] eqn:Ev; simpl; [| discriminate].
  intros H. injection H as <-.
  exists tags_text, text, parsed, grouped, views. repeat split; assumption.
Qed.

(** C8.  Once [Dialect(name)] has returned [d], [d.is_functional] is
    [True] exactly when every op in [d.ops] satisfies
    [op.func.is_functional_fn()], and [False] exactly when some op in
    [d.ops] does not; the ops in [d.ops] are parsed functions tagged
    [canonical]. *)
Theorem is_functional_iff (n : string) (w : World) (d : Dialect) :
  result (new_Dialect n) w = Some d ->
  (is_functional d = true <->
     forall op, In op (PyDict.values (ops d)) ->
                is_functional_fn (func op) = true) /\
  (is_functional d = false <->
     exists op, In op (PyDict.values (ops d)) /\
                is_functional_fn (func op) = false) /\
  (exists parsed,
     ops d = canonical_ops (native_functions parsed) /\
     forall op, In op (PyDict.values (ops d)) ->
                In op (native_functions parsed) /\ canonical op = true).
Proof.
  intros H. apply new_Dialect_inv in H.
  destruct H as (tt_ & tx & parsed & gr & vs & _ & _ & _ & _ & _ & ->).
  unfold is_functional. simpl. rewrite functional_flag_forallb.
  split; [apply forallb_forall |].
  split.
  - rewrite <- not_true_iff_false, forallb_forall. split.
    + intros N.
      induction (PyDict.values (canonical_ops (native_functions parsed)))
        as [| op l IH].
      * exfalso. apply N. intros ? [].
      * destruct (is_functional_fn (func op)) eqn:F.
        -- destruct IH as [op' [I F']].
           { intros A. apply N. intros x [<- | Hx]; [exact F | apply A; exact Hx]. }
           exists op'. split; [right; exact I | exact F'].
        -- exists op. split; [left; reflexivity | exact F].
    + intros [op [I F]] A. rewrite (A op I) in F. discriminate.
  - exists parsed. split; [reflexivity |]. apply canonical_ops_values.
Qed.

(** *** Lines 71-81: [print_schema] *)

Lemma schema_loop (l : list NativeFunction) (table : list (list Cell)) :
  fold_left (fun table op => table ++ [schema_row op]) l table
  = table ++ map schema_row l.
Proof.
  revert table. induction l as [| op l IH]; intros table; simpl.
  - symmetry. apply app_nil_r.
  - rewrite IH, <- app_assoc. reflexivity.
Qed.

(** The table has one row per op, in the order of [self.ops.values()]. *)
Lemma schema_table_rows (self : Dialect) :
  schema_table self = map schema_row (PyDict.values (ops self)).
Proof. unfold schema_table. apply schema_loop. Qed.



(** *** The whole script *)

(** C2, as amended.  A run of the script that ends without an exception
    has printed exactly three tables: the two of [print_tabular], then the
    one of [print_schema], all three about the [Dialect] it built. *)
Theorem main_prints_three_tables (w : World) :
  result main w = Some tt ->
  exists d,
    result (new_Dialect "aten") w = Some d /\
    printed_tables (trace (print_tabular d) w)
    = [ Table ["functional"; "out"; "inplace"] (functional_table d);
        Table ["view"; "view_copy"; "view_inplace"] (view_table d) ] /\
    printed_tables (trace (print_schema d) w)
    = [ Table ["op"; "schema"; "aliased_return_names"] (schema_table d) ] /\
    printed_tables (trace main w)
    = printed_tables (trace (print_tabular d) w)
      ++ printed_tables (trace (print_schema d) w).
Proof.
  unfold result, trace, main, import_tabulate, print_tabular, print_schema,
    tabulate, print, new_Dialect, parse_native_yaml, open_read, bind, emit,
    global, lift, ret, raise, native_functions_yaml, tags_yaml.
  simpl.
  destruct (tabulate_installed w) eqn:T; simpl.
  - destruct (files w "aten/src/ATen/native/tags.yaml"); simpl; [| discriminate].
    destruct (files w "aten/src/ATen/native/native_functions.yaml");
      simpl; [| discriminate].
    destruct (load_native_yaml s0 s) as [parsed |]; simpl; [| discriminate].
    destruct (get_grouped_native_functions (native_functions parsed));
      simpl; [| discriminate].
    destruct (get_grouped_by_view_native_functions (native_functions parsed));
      simpl; [| discriminate].
    intros _. eexists. split; [reflexivity |].
    repeat (rewrite T; simpl).
    repeat split; reflexivity.
  - destruct (files w "aten/src/ATen/native/tags.yaml"); simpl; [| discriminate].
    destruct (files w "aten/src/ATen/native/native_functions.yaml");
      simpl; [| discriminate].
    destruct (load_native_yaml s0 s) as [parsed |]; simpl; [| discriminate].
    destruct (get_grouped_native_functions (native_functions parsed));
      simpl; [| discriminate].
    destruct (get_grouped_by_view_native_functions (native_functions parsed));
      simpl; repeat (rewrite T; simpl); discriminate.
Qed.

(** *** Effects of the script *)

Lemma frames_new_Dialect (P : Event Out -> Prop) (n : string) :
  P (EvNew cls_Dialect) -> P (EvRead tags_yaml) ->
  P (EvRead native_functions_yaml) ->
  frames P (new_Dialect n).
Proof.
  intros Hn Ht Hy.
  unfold new_Dialect, parse_native_yaml, open_read. frame.
Qed.

Lemma frames_main (P : Event Out -> Prop) :
  P (EvNew cls_Dialect) -> P (EvRead tags_yaml) ->
  P (EvRead native_functions_yaml) -> (forall o, P (EvPrint o)) ->
  frames P main.
Proof.
  intros Hn Ht Hy Hp.
  unfold main, import_tabulate, print_tabular, print_schema, tabulate, print.
  cbv zeta.
  repeat first
    [ apply frames_new_Dialect; assumption
    | apply frames_bind; [| intros ?]
    | match goal with |- frames _ (if ?c then _ else _) => destruct c end
    | apply frames_ret
    | apply frames_raise
    | apply frames_global
    | apply frames_emit; auto ].
Qed.

End ScriptFacts.

End AtenDocgenSpec.

(* ===================================================================== *)
(** ** Both files                                                         *)
(* ===================================================================== *)

Module ScriptsSpec.
Import Executorch AtenDocgen ExecutorchSpec AtenDocgenSpec.


(** C5, as amended.  The reporting script constructs no configuration
    object: in every run its only constructor call makes a [Dialect].
    Importing [executorch.py] and calling
    [get_executorch_backend_config] constructs [DTypeConfig],
    [BackendPatternConfig] and [BackendConfig] objects, returns the
    [BackendConfig], and performs constructor calls only, so it prints
    nothing. *)
Theorem which_file_constructs_configs :
  (forall (TM : Model) (TG : Gen) (w : World),
     Forall news_only_Dialect (trace main w) /\
     constructs cls_DTypeConfig (trace main w) = false /\
     constructs cls_BackendPatternConfig (trace main w) = false /\
     constructs cls_BackendConfig (trace main w) = false) /\
  (exists b,
     result import_and_call tt = Some b /\
     constructs cls_DTypeConfig (trace import_and_call tt) = true /\
     constructs cls_BackendPatternConfig (trace import_and_call tt) = true /\
     constructs cls_BackendConfig (trace import_and_call tt) = true /\
     Forall is_new (trace import_and_call tt)).
Proof.
  split.
  - intros TM TG w.
    assert (F : Forall news_only_Dialect (trace main w)).
    { apply frames_main; simpl; auto. }
    split; [exact F |].
    assert (N : forall c, c <> cls_Dialect -> constructs c (trace main w) = false).
    { intros c Hc. unfold constructs.
      induction F as [| e t He _ IH]; simpl; [reflexivity |].
      rewrite IH, orb_false_r.
      destruct e as [c' | |]; try reflexivity.
      simpl in He. subst c'.
      destruct (Class_eq_dec c cls_Dialect); [contradiction | reflexivity]. }
    repeat split; apply N; discriminate.
  - eexists. split; [reflexivity |].
    repeat split; try reflexivity.
    cbv. repeat constructor.
Qed.

(** *** Runs on the small instance *)

(** C2: counterexample.  With three parsed functions, two of them tagged,
    the run ends without an exception and has printed three tables, the
    third one by [print_schema]. *)
Lemma main_prints_a_third_table :
  result (@main ToyModel (ToyGen toy_functions)) toy_world = Some tt /\
  printed_tables (trace (@main ToyModel (ToyGen toy_functions)) toy_world)
  = [ @Table ToyModel ["functional"; "out"; "inplace"] [];
      Table ["view"; "view_copy"; "view_inplace"] [];
      Table ["op"; "schema"; "aliased_return_names"]
        [ [@CName ToyModel "add.Tensor"; @CSchema ToyModel (toy_func toy_add); @CStr ToyModel "N/A"];
          [@CName ToyModel "add.out"; @CSchema ToyModel (toy_func toy_add_out);
           @CNames ToyModel [Some "out"]] ] ] /\
  printed_tables (trace (print_tabular toy_dialect) toy_world)
  = [ @Table ToyModel ["functional"; "out"; "inplace"] [];
      Table ["view"; "view_copy"; "view_inplace"] [] ] /\
  List.length
    (printed_tables (trace (@main ToyModel (ToyGen toy_functions)) toy_world))
  = 3%nat.
Proof. repeat split; reflexivity. Qed.

(** C2: the amended statement at that run. *)
Lemma main_prints_three_tables_witness :
  result (@main ToyModel (ToyGen toy_functions)) toy_world = Some tt /\
  exists d,
    result (@new_Dialect ToyModel (ToyGen toy_functions) "aten") toy_world
    = Some d /\
    printed_tables (trace (@main ToyModel (ToyGen toy_functions)) toy_world)
    = printed_tables (trace (print_tabular d) toy_world)
      ++ printed_tables (trace (print_schema d) toy_world).
Proof.
  split; [reflexivity |].
  destruct (@main_prints_three_tables ToyModel (ToyGen toy_functions)
              toy_world eq_refl) as [d [Hd [_ [_ Hm]]]].
  exists d. split; [exact Hd | exact Hm].
Defined.

(** C3: counterexample.  Two parsed functions are named [add.Tensor] and
    only the first is tagged: the name of the second is a key of
    [self.ops], and the second is not tagged. *)
Lemma repeated_name_is_a_key :
  In toy_add_untagged toy_repeated_name /\
  @has_tag ToyModel "canonical" toy_add_untagged = false /\
  PyDict.contains string_dec (toy_name (toy_func toy_add_untagged))
    (@canonical_ops ToyModel toy_repeated_name) = true /\
  exists d,
    result (@new_Dialect ToyModel (ToyGen toy_repeated_name) "aten") toy_world
    = Some d /\
    ops d = [("add.Tensor", toy_add)].
Proof.
  split; [right; left; reflexivity |].
  split; [reflexivity |].
  split; [reflexivity |].
  eexists. split; reflexivity.
Qed.

(** C3: the amended statement on three functions with three names. *)
Lemma canonical_ops_is_filter_witness :
  NoDup (map (fun f => toy_name (toy_func f)) toy_functions) /\
  @canonical_ops ToyModel toy_functions
  = [("add.Tensor", toy_add); ("add.out", toy_add_out)].
Proof.
  assert (H : NoDup (map (fun f => toy_name (toy_func f)) toy_functions)).
  { repeat constructor; simpl; intuition discriminate. }
  split; [exact H |].
  exact (proj1 (@canonical_ops_is_filter ToyModel toy_functions H)).
Defined.


(** C8: [add.out] is tagged and not functional, so the flag is [False]. *)
Lemma is_functional_iff_witness :
  result (@new_Dialect ToyModel (ToyGen toy_functions) "aten") toy_world
  = Some toy_dialect /\
  (is_functional toy_dialect = false <->
   exists op, In op (PyDict.values (ops toy_dialect)) /\
              toy_functional (toy_func op) = false).
Proof.
  split; [reflexivity |].
  exact (proj1 (proj2 (@is_functional_iff ToyModel (ToyGen toy_functions)
                         "aten" toy_world toy_dialect eq_refl))).
Defined.

(** C5: counterexample.  The run of the reporting script on the small
    instance ends without an exception, having constructed no
    [DTypeConfig], no [BackendPatternConfig] and no [BackendConfig]. *)
Lemma main_constructs_no_config :
  result (@main ToyModel (ToyGen toy_functions)) toy_world = Some tt /\
  constructs cls_DTypeConfig
    (trace (@main ToyModel (ToyGen toy_functions)) toy_world) = false /\
  constructs cls_BackendPatternConfig
    (trace (@main ToyModel (ToyGen toy_functions)) toy_world) = false /\
  constructs cls_BackendConfig
    (trace (@main ToyModel (ToyGen toy_functions)) toy_world) = false.
Proof. repeat split; reflexivity. Qed.

End ScriptsSpec.

(* ===================================================================== *)
(** ** Further facts                                                      *)
(* ===================================================================== *)

Module MoreFacts.
Import Executorch AtenDocgen ExecutorchSpec AtenDocgenSpec.

Lemma setitem_keeps_NoDup {K V : Type}
    (K_eq_dec : forall x y : K, {x = y} + {x <> y})
    (k : K) (v : V) (d : PyDict.t K V) :
  NoDup (PyDict.keys d) -> NoDup (PyDict.keys (PyDict.setitem K_eq_dec k v d)).
Proof.
  intros H. rewrite keys_setitem.
  destruct (in_dec K_eq_dec k (PyDict.keys d)) as [I | N]; [exact H |].
  apply NoDup_app; [exact H | repeat constructor; intros [] |].
  intros x Hx [<- | []]. exact (N Hx).
Qed.

(** X1.  Whatever the names of the parsed functions: a name is a key of
    [self.ops] exactly when some parsed function of that name is tagged
    [canonical]; what is stored under a key is a parsed function of that
    name that is tagged; and no key occurs twice. *)
Theorem ops_for_any_names (TM : Model) (fs : list NativeFunction) :
  (forall k,
     PyDict.contains OperatorName_eq_dec k (canonical_ops fs) = true <->
     exists f, In f fs /\ name (func f) = k /\ has_tag "canonical" f = true) /\
  (forall k g,
     PyDict.lookup OperatorName_eq_dec k (canonical_ops fs) = Some g ->
     In g fs /\ name (func g) = k /\ has_tag "canonical" g = true) /\
  NoDup (PyDict.keys (canonical_ops fs)).
Proof.
  split; [intros k; apply canonical_ops_keys |].
  split.
  - intros k g H. unfold canonical_ops in H.
    apply canonical_loop_entries in H. destruct H as [H | H]; [discriminate | exact H].
  - unfold canonical_ops.
    assert (G : forall acc : PyDict.t OperatorName NativeFunction,
               NoDup (PyDict.keys acc) ->
               NoDup (PyDict.keys
                        (fold_left
                           (fun ops function =>
                              if has_tag "canonical" function
                              then PyDict.setitem OperatorName_eq_dec
                                     (name (func function)) function ops
                              else ops) fs acc))).
    { induction fs as [| f l IH]; intros acc H; simpl; [exact H |].
      apply IH. destruct (has_tag "canonical" f); [| exact H].
      apply setitem_keeps_NoDup. exact H. }
    apply G. constructor.
Qed.

(** X2.  A call constructs one [BackendConfig] and then 24
    [BackendPatternConfig]s, which are the 24 configs of the result: 2 for
    linear, 7 for conv, 2 for binary ops, 11 that share qparams, 1 for
    batchnorm and 1 for cat. *)
Theorem constructor_calls_of_a_call (g : Globals) :
  trace get_executorch_backend_config g
  = EvNew cls_BackendConfig :: repeat (EvNew cls_BackendPatternConfig) 24 /\
  option_map (fun b => List.length (configs b))
    (result get_executorch_backend_config g) = Some 24%nat /\
  map (fun m => option_map (@List.length BackendPatternConfig) (result m g))
      [ _get_linear_configs; _get_conv_configs; _get_binary_ops_configs;
        _get_share_qparams_ops_configs; _get_bn_configs; _get_cat_configs ]
  = map Some [2; 7; 2; 11; 1; 1]%nat.
Proof. repeat split; reflexivity. Qed.

(** X3.  Every config of [_get_share_qparams_ops_configs] has
    [OUTPUT_SHARE_OBSERVER_WITH_INPUT] as observation type, as its
    docstring says; and the two conv-then-relu module patterns are fused
    into [ConvReLU2d] by [_reverse_sequential_wrapper2] of that class. *)
Theorem share_qparams_and_fusion (g : Globals) :
  (exists share,
     result _get_share_qparams_ops_configs g = Some share /\
     Forall (fun c => observation_type c = OUTPUT_SHARE_OBSERVER_WITH_INPUT)
            share) /\
  (exists b,
     result get_executorch_backend_config g = Some b /\
     forall relu, relu = torch_nn_ReLU \/ relu = F_relu ->
       exists c,
         PyDict.lookup Pattern_eq_dec (PTuple (PObj relu) (PObj nn_Conv2d))
                       (configs b) = Some c /\
         fused_module c = Some nni_ConvReLU2d /\
         fuser_method c = Some (_reverse_sequential_wrapper2 nni_ConvReLU2d)).
Proof.
  split.
  - eexists. split; [reflexivity |]. repeat constructor.
  - eexists. split; [reflexivity |].
    intros relu [-> | ->]; eexists; (split; [reflexivity |]); split; reflexivity.
Qed.

(** X4.  Where [tabulate] is not installed, whatever the files hold: the
    script first prints the notice of lines 11-13, then raises, and no
    table is printed. *)
Theorem main_without_tabulate (TM : Model) (TG : Gen)
    (fls : string -> option string) :
  result main {| files := fls; tabulate_installed := false |} = None /\
  printed_tables (trace main {| files := fls; tabulate_installed := false |}) = [] /\
  hd_error (trace main {| files := fls; tabulate_installed := false |})
  = Some (EvPrint
            (Text ("`print_tabular` relies on the library `tabulate`, "
                   ++ "which could not be found on this machine. Run `pip "
                   ++ "install tabulate` to install the library."))).
Proof.
  unfold result, trace, main, import_tabulate, print_tabular, print_schema,
    tabulate, print, new_Dialect, parse_native_yaml, open_read, bind, emit,
    global, lift, ret, raise, native_functions_yaml, tags_yaml.
  simpl.
  destruct (fls "aten/src/ATen/native/tags.yaml");
    simpl; [| repeat split; reflexivity].
  destruct (fls "aten/src/ATen/native/native_functions.yaml");
    simpl; [| repeat split; reflexivity].
  destruct (load_native_yaml s0 s) as [parsed |];
    simpl; [| repeat split; reflexivity].
  destruct (get_grouped_native_functions (native_functions parsed));
    simpl; [| repeat split; reflexivity].
  destruct (get_grouped_by_view_native_functions (native_functions parsed));
    simpl; repeat split; reflexivity.
Qed.

(** *** Lines 32-43: the two dictionaries of groups *)

(** Both comprehensions have one shape: go through a list, and for each
    item that is selected assign it under its key. *)
Section SelectedAssignments.
Context {K V X : Type}.
Variable K_eq_dec : forall x y : K, {x = y} + {x <> y}.
Variable sel : X -> option (K * V).

Definition assign_selected (xs : list X) (acc : PyDict.t K V) : PyDict.t K V :=
  fold_left
    (fun acc x =>
       match sel x with
       | Some (k, v) => PyDict.setitem K_eq_dec k v acc
       | None => acc
       end)
    xs acc.

Lemma assign_selected_lookup (xs : list X) (acc : PyDict.t K V) (k : K) (v : V) :
  PyDict.lookup K_eq_dec k (assign_selected xs acc) = Some v ->
  PyDict.lookup K_eq_dec k acc = Some v \/
  exists x, In x xs /\ sel x = Some (k, v).
Proof.
  unfold assign_selected. revert acc.
  induction xs as [| x xs IH]; intros acc H; simpl in *.
  - left. exact H.
  - apply IH in H. destruct H as [H | [y [I E]]].
    + destruct (sel x) as [[k' v'] |] eqn:S; [| left; exact H].
      destruct (K_eq_dec k k') as [-> | N].
      * rewrite lookup_setitem_same in H. injection H as ->.
        right. exists x. split; [left; reflexivity | exact S].
      * rewrite lookup_setitem_other in H by exact N. left. exact H.
    + right. exists y. split; [right; exact I | exact E].
Qed.

Lemma assign_selected_NoDup (xs : list X) (acc : PyDict.t K V) :
  NoDup (PyDict.keys acc) -> NoDup (PyDict.keys (assign_selected xs acc)).
Proof.
  unfold assign_selected. revert acc.
  induction xs as [| x xs IH]; intros acc H; simpl; [exact H |].
  apply IH. destruct (sel x) as [[k v] |]; [| exact H].
  apply setitem_keeps_NoDup. exact H.
Qed.

(** A selected item's key is a key of the result. *)
Lemma assign_selected_contains (xs : list X) (acc : PyDict.t K V)
    (x : X) (k : K) (v : V) :
  In x xs -> sel x = Some (k, v) ->
  PyDict.contains K_eq_dec k (assign_selected xs acc) = true.
Proof.
  assert (Keep : forall l a, PyDict.contains K_eq_dec k a = true ->
                 PyDict.contains K_eq_dec k (assign_selected l a) = true).
  { unfold assign_selected. induction l as [| y l IH]; intros a H; simpl.
    - exact H.
    - apply IH. destruct (sel y) as [[k' v'] |]; [| exact H].
      unfold PyDict.contains in *.
      destruct (K_eq_dec k k') as [-> | N].
      + rewrite lookup_setitem_same. reflexivity.
      + rewrite lookup_setitem_other by exact N. exact H. }
  revert acc. induction xs as [| y xs IH]; intros acc I S; [destruct I |].
  destruct I as [-> | I].
  - unfold assign_selected. simpl. rewrite S. apply Keep.
    unfold PyDict.contains. rewrite lookup_setitem_same. reflexivity.
  - unfold assign_selected. simpl. apply IH; assumption.
Qed.

End SelectedAssignments.

Lemma keys_lookup {K V : Type}
    (K_eq_dec : forall x y : K, {x = y} + {x <> y})
    (k : K) (d : PyDict.t K V) :
  In k (PyDict.keys d) -> exists v, PyDict.lookup K_eq_dec k d = Some v.
Proof.
  intros I. destruct (PyDict.lookup K_eq_dec k d) as [v |] eqn:E.
  - exists v. reflexivity.
  - apply lookup_none_keys in E. contradiction.
Qed.

Section Groups.
Context {TM : Model}.

(** What lines 32-35 select of an item of the grouping. *)
Definition structured_entry (ops : PyDict.t OperatorName NativeFunction)
    (g : NativeFunction + NativeFunctionsGroup)
  : option (OperatorName * NativeFunctionsGroup) :=
  match g with
  | inr g =>
      if PyDict.contains OperatorName_eq_dec (name (func (functional g))) ops
      then Some (name (func (functional g)), g)
      else None
  | inl _ => None
  end.

(** What lines 40-43 select of an item of the grouping by view. *)
Definition view_entry (ops : PyDict.t OperatorName NativeFunction)
    (g : NativeFunction + NativeFunctionsViewGroup)
  : option (OperatorName * NativeFunctionsViewGroup) :=
  match g with
  | inr g =>
      if PyDict.contains OperatorName_eq_dec (name (func (view g))) ops
      then Some (name (func (view g)), g)
      else None
  | inl _ => None
  end.

Lemma structured_of_selected (ops : PyDict.t OperatorName NativeFunction)
    (grouped : list (NativeFunction + NativeFunctionsGroup)) :
  structured_of ops grouped
  = assign_selected OperatorName_eq_dec (structured_entry ops) grouped PyDict.empty.
Proof.
  unfold structured_of, assign_selected.
  generalize (@PyDict.empty OperatorName NativeFunctionsGroup).
  induction grouped as [| g l IH]; intros acc; simpl; [reflexivity |].
  rewrite IH. f_equal. unfold structured_entry.
  destruct g as [f | g]; [reflexivity |].
  destruct (PyDict.contains _ _ _); reflexivity.
Qed.

Lemma view_groups_of_selected (ops : PyDict.t OperatorName NativeFunction)
    (views : list (NativeFunction + NativeFunctionsViewGroup)) :
  view_groups_of ops views
  = assign_selected OperatorName_eq_dec (view_entry ops) views PyDict.empty.
Proof.
  unfold view_groups_of, assign_selected.
  generalize (@PyDict.empty OperatorName NativeFunctionsViewGroup).
  induction views as [| g l IH]; intros acc; simpl; [reflexivity |].
  rewrite IH. f_equal. unfold view_entry.
  destruct g as [f | g]; [reflexivity |].
  destruct (PyDict.contains _ _ _); reflexivity.
Qed.

(** A dictionary whose keys are all keys of [ops] has no more entries. *)
Lemma no_more_entries {V : Type} (d : PyDict.t OperatorName V)
    (ops : PyDict.t OperatorName NativeFunction) :
  NoDup (PyDict.keys d) ->
  (forall k v, PyDict.lookup OperatorName_eq_dec k d = Some v ->
               PyDict.contains OperatorName_eq_dec k ops = true) ->
  (List.length d <= List.length ops)%nat.
Proof.
  intros ND H.
  rewrite <- (length_map fst d), <- (length_map fst ops).
  apply NoDup_incl_length; [exact ND |].
  intros k I. apply (keys_lookup OperatorName_eq_dec) in I.
  destruct I as [v L]. apply contains_keys with (K_eq_dec := OperatorName_eq_dec).
  exact (H k v L).
Qed.

End Groups.

(** X5.  For any [self.ops] and any result of the two groupings: an
    entry of [self.structured_native_functions] is a group of the grouping,
    stored under the name of its [functional], and that name is a key of
    [self.ops]; every group of the grouping whose [functional] is named in
    [self.ops] has its name as a key; the same holds for
    [self.view_groups] with [view]; no key occurs twice; and neither
    dictionary has more entries than [self.ops]. *)
Theorem groups_are_about_ops (TM : Model)
    (ops : PyDict.t OperatorName NativeFunction)
    (grouped : list (NativeFunction + NativeFunctionsGroup))
    (views : list (NativeFunction + NativeFunctionsViewGroup)) :
  (forall k g,
     PyDict.lookup OperatorName_eq_dec k (structured_of ops grouped) = Some g ->
     In (inr g) grouped /\ name (func (functional g)) = k /\
     PyDict.contains OperatorName_eq_dec k ops = true) /\
  (forall g,
     In (inr g) grouped ->
     PyDict.contains OperatorName_eq_dec (name (func (functional g))) ops = true ->
     PyDict.contains OperatorName_eq_dec (name (func (functional g)))
       (structured_of ops grouped) = true) /\
  (forall k g,
     PyDict.lookup OperatorName_eq_dec k (view_groups_of ops views) = Some g ->
     In (inr g) views /\ name (func (view g)) = k /\
     PyDict.contains OperatorName_eq_dec k ops = true) /\
  (forall g,
     In (inr g) views ->
     PyDict.contains OperatorName_eq_dec (name (func (view g))) ops = true ->
     PyDict.contains OperatorName_eq_dec (name (func (view g)))
       (view_groups_of ops views) = true) /\
  NoDup (PyDict.keys (structured_of ops grouped)) /\
  NoDup (PyDict.keys (view_groups_of ops views)) /\
  (List.length (structured_of ops grouped) <= List.length ops)%nat /\
  (List.length (view_groups_of ops views) <= List.length ops)%nat.
Proof.
  assert (S : forall k g,
     PyDict.lookup OperatorName_eq_dec k (structured_of ops grouped) = Some g ->
     In (inr g) grouped /\ name (func (functional g)) = k /\
     PyDict.contains OperatorName_eq_dec k ops = true).
  { intros k g H. rewrite structured_of_selected in H.
    apply assign_selected_lookup in H. destruct H as [H | [x [I E]]].
    - discriminate.
    - unfold structured_entry in E. destruct x as [f | g']; [discriminate |].
      destruct (PyDict.contains _ _ _) eqn:C; [| discriminate].
      injection E as <- <-. tauto. }
  assert (W : forall k g,
     PyDict.lookup OperatorName_eq_dec k (view_groups_of ops views) = Some g ->
     In (inr g) views /\ name (func (view g)) = k /\
     PyDict.contains OperatorName_eq_dec k ops = true).
  { intros k g H. rewrite view_groups_of_selected in H.
    apply assign_selected_lookup in H. destruct H as [H | [x [I E]]].
    - discriminate.
    - unfold view_entry in E. destruct x as [f | g']; [discriminate |].
      destruct (PyDict.contains _ _ _) eqn:C; [| discriminate].
      injection E as <- <-. tauto. }
  assert (NS : NoDup (PyDict.keys (structured_of ops grouped))).
  { rewrite structured_of_selected. apply assign_selected_NoDup. constructor. }
  assert (NW : NoDup (PyDict.keys (view_groups_of ops views))).
  { rewrite view_groups_of_selected. apply assign_selected_NoDup. constructor. }
  split; [exact S |].
  split.
  { intros g I C. rewrite structured_of_selected.
    apply (assign_selected_contains _ _ _ _ (inr g) _ g I).
    unfold structured_entry. rewrite C. reflexivity. }
  split; [exact W |].
  split.
  { intros g I C. rewrite view_groups_of_selected.
    apply (assign_selected_contains _ _ _ _ (inr g) _ g I).
    unfold view_entry. rewrite C. reflexivity. }
  split; [exact NS |]. split; [exact NW |].
  split; apply no_more_entries; try assumption.
  - intros k v H. apply (S k v H).
  - intros k v H. apply (W k v H).
Qed.

(** X6.  The assertion of lines 45-48, which the source has commented out,
    does not follow from the code: there is a run in which [Dialect] is
    built, [self.ops] has two entries and the two dictionaries of groups
    have none (the groupings put no tagged function into a group). *)
Theorem disabled_assertion_can_fail :
  exists (TG : @Gen ToyModel) (w : World) (d : Dialect),
    result (@new_Dialect ToyModel TG "aten") w = Some d /\
    List.length (ops d) = 2%nat /\
    (List.length (structured_native_functions d)
     + List.length (view_groups d))%nat = 0%nat.
Proof.
  exists (ToyGen toy_functions), toy_world, toy_dialect.
  repeat split; reflexivity.
Qed.

(** X7.  [Dialect(name)] raises exactly when one of the two files cannot
    be opened, or the parser raises on their text, or one of the two
    groupings raises on the parsed functions. *)
Theorem new_Dialect_raises_iff (TM : Model) (TG : Gen) (n : string) (w : World) :
  result (new_Dialect n) w = None <->
  files w tags_yaml = None \/
  files w native_functions_yaml = None \/
  (exists tags_text text,
     files w tags_yaml = Some tags_text /\
     files w native_functions_yaml = Some text /\
     (load_native_yaml text tags_text = None \/
      exists parsed,
        load_native_yaml text tags_text = Some parsed /\
        (get_grouped_native_functions (native_functions parsed) = None \/
         get_grouped_by_view_native_functions (native_functions parsed) = None))).
Proof.
  unfold result, new_Dialect, parse_native_yaml, open_read, bind, emit,
    global, lift, ret, native_functions_yaml, tags_yaml.
  simpl.
  destruct (files w "aten/src/ATen/native/tags.yaml") as [tags_text |];
    simpl; [| tauto].
  destruct (files w "aten/src/ATen/native/native_functions.yaml") as [text |];
    simpl; [| tauto].
  destruct (load_native_yaml text tags_text) as [parsed |] eqn:L; simpl.
  - destruct (get_grouped_native_functions (native_functions parsed)) eqn:G;
      simpl.
    + destruct (get_grouped_by_view_native_functions (native_functions parsed))
        eqn:W; simpl.
      * split; [discriminate |].
        intros [H | [H | (t & x & Ht & Hx & H)]]; try discriminate.
        injection Ht as <-. injection Hx as <-.
        destruct H as [H | (p & Hp & [H | H])]; congruence.
      * split; [intros _ | reflexivity].
        right. right. exists tags_text, text.
        repeat split. right. exists parsed. split; [exact L | right; exact W].
    + split; [intros _ | reflexivity].
      right. right. exists tags_text, text.
      repeat split. right. exists parsed. split; [exact L | left; exact G].
  - split; [intros _ | reflexivity].
    right. right. exists tags_text, text. repeat split. left. exact L.
Qed.

(** *** The whole run, print by print *)

(** What a run wrote to standard output, one entry per [print]. *)
Definition prints {O : Type} (t : list (Event O)) : list O :=
  flat_map (fun e => match e with
                     | EvPrint o => [o]
                     | _ => []
                     end) t.

Definition tabulate_notice {TM : Model} : Out :=
  Text ("`print_tabular` relies on the library `tabulate`, "
        ++ "which could not be found on this machine. Run `pip "
        ++ "install tabulate` to install the library.").

(** X8.  When [Dialect("aten")] raises, the script ends with that
    exception and no table is printed; standard output is empty, or holds
    only the notice about [tabulate] where that library is missing. *)
Theorem main_stops_when_Dialect_raises (TM : Model) (TG : Gen) (w : World) :
  result (new_Dialect "aten") w = None ->
  result main w = None /\
  printed_tables (trace main w) = [] /\
  prints (trace main w)
  = if tabulate_installed w then [] else [tabulate_notice].
Proof.
  unfold result, trace, main, import_tabulate, print_tabular, print_schema,
    tabulate, print, new_Dialect, parse_native_yaml, open_read, bind, emit,
    global, lift, ret, raise, native_functions_yaml, tags_yaml,
    tabulate_notice.
  simpl.
  destruct (tabulate_installed w) eqn:T; simpl;
    (destruct (files w "aten/src/ATen/native/tags.yaml");
       simpl; [| repeat split; reflexivity]);
    (destruct (files w "aten/src/ATen/native/native_functions.yaml");
       simpl; [| repeat split; reflexivity]);
    (destruct (load_native_yaml s0 s) as [parsed |];
       simpl; [| repeat split; reflexivity]);
    (destruct (get_grouped_native_functions (native_functions parsed));
       simpl; [| repeat split; reflexivity]);
    (destruct (get_grouped_by_view_native_functions (native_functions parsed));
       simpl; [discriminate | repeat split; reflexivity]).
Qed.

(** X9.  A run of the script that ends without an exception had
    [tabulate] installed and wrote, in this order: the table of the
    structured groups, an empty line, the table of the view groups, the
    table of schemas, and [True] or [False] for [d.is_functional], all
    about the [Dialect] it built. *)
Theorem main_output_in_order (TM : Model) (TG : Gen) (w : World) :
  result main w = Some tt ->
  tabulate_installed w = true /\
  exists d,
    result (new_Dialect "aten") w = Some d /\
    prints (trace main w)
    = [ Table ["functional"; "out"; "inplace"] (functional_table d);
        Text "";
        Table ["view"; "view_copy"; "view_inplace"] (view_table d);
        Table ["op"; "schema"; "aliased_return_names"]
              (map schema_row (PyDict.values (ops d)));
        Text (if is_functional d then "True" else "False") ].
Proof.
  unfold result, trace, main, import_tabulate, print_tabular, print_schema,
    tabulate, print, new_Dialect, parse_native_yaml, open_read, bind, emit,
    global, lift, ret, raise, native_functions_yaml, tags_yaml, str_bool.
  simpl.
  destruct (tabulate_installed w) eqn:T; simpl;
    (destruct (files w "aten/src/ATen/native/tags.yaml");
       simpl; [| discriminate]);
    (destruct (files w "aten/src/ATen/native/native_functions.yaml");
       simpl; [| discriminate]);
    (destruct (load_native_yaml s0 s) as [parsed |]; simpl; [| discriminate]);
    (destruct (get_grouped_native_functions (native_functions parsed));
       simpl; [| discriminate]);
    (destruct (get_grouped_by_view_native_functions (native_functions parsed));
       simpl; [| discriminate]);
    repeat (rewrite T; simpl); try discriminate.
  intros _. split; [reflexivity |].
  eexists. split; [reflexivity |].
  rewrite schema_table_rows. reflexivity.
Qed.

(** X10.  When no parsed function is tagged [canonical], [self.ops] is
    empty; then, whatever the groupings return, both dictionaries of groups
    are empty, [_is_functional] is [True], and the three tables have no
    row. *)
Theorem nothing_canonical (TM : Model) (fs : list NativeFunction)
    (grouped : list (NativeFunction + NativeFunctionsGroup))
    (views : list (NativeFunction + NativeFunctionsViewGroup))
    (n : string) :
  (forall f, In f fs -> has_tag "canonical" f = false) ->
  canonical_ops fs = [] /\
  structured_of (canonical_ops fs) grouped = [] /\
  view_groups_of (canonical_ops fs) views = [] /\
  functional_flag (canonical_ops fs) = true /\
  let d := {| self_name := n;
              ops := canonical_ops fs;
              structured_native_functions :=
                structured_of (canonical_ops fs) grouped;
              view_groups := view_groups_of (canonical_ops fs) views;
              _is_functional := functional_flag (canonical_ops fs) |} in
  functional_table d = [] /\ view_table d = [] /\ schema_table d = [].
Proof.
  intros H.
  assert (E : canonical_ops fs = []).
  { assert (G : forall acc : PyDict.t OperatorName NativeFunction,
               fold_left
                 (fun ops function =>
                    if has_tag "canonical" function
                    then PyDict.setitem OperatorName_eq_dec
                           (name (func function)) function ops
                    else ops) fs acc = acc).
    { induction fs as [| f l IH]; intros acc; simpl; [reflexivity |].
      rewrite (H f (or_introl eq_refl)).
      apply IH. intros x I. apply H. right. exact I. }
    apply G. }
  assert (S : structured_of [] grouped = []).
  { assert (G : forall acc : PyDict.t OperatorName NativeFunctionsGroup,
               fold_left
                 (fun acc g =>
                    match g with
                    | inr g =>
                        if PyDict.contains OperatorName_eq_dec
                             (name (func (functional g)))
                             (@nil (OperatorName * NativeFunction))
                        then PyDict.setitem OperatorName_eq_dec
                               (name (func (functional g))) g acc
                        else acc
                    | inl _ => acc
                    end) grouped acc = acc).
    { induction grouped as [| g l IH]; intros acc; simpl; [reflexivity |].
      destruct g; apply IH. }
    apply G. }
  assert (W : view_groups_of [] views = []).
  { assert (G : forall acc : PyDict.t OperatorName NativeFunctionsViewGroup,
               fold_left
                 (fun acc g =>
                    match g with
                    | inr g =>
                        if PyDict.contains OperatorName_eq_dec
                             (name (func (view g)))
                             (@nil (OperatorName * NativeFunction))
                        then PyDict.setitem OperatorName_eq_dec
                               (name (func (view g))) g acc
                        else acc
                    | inl _ => acc
                    end) views acc = acc).
    { induction views as [| g l IH]; intros acc; simpl; [reflexivity |].
      destruct g; apply IH. }
    apply G. }
  rewrite E, S, W. repeat split; reflexivity.
Qed.

(** *** The returned table, entry by entry *)

Lemma lookup_of_entry {K V : Type}
    (K_eq_dec : forall x y : K, {x = y} + {x <> y})
    (d : PyDict.t K V) (k : K) (v : V) :
  NoDup (PyDict.keys d) -> In (k, v) d ->
  PyDict.lookup K_eq_dec k d = Some v.
Proof.
  induction d as [| [k' v'] d IH]; simpl; intros ND I; [destruct I |].
  inversion ND as [| ? ? Hk Hd]; subst.
  destruct I as [E | I].
  - injection E as -> ->. destruct (K_eq_dec k k); congruence.
  - destruct (K_eq_dec k k') as [-> | N].
    + exfalso. apply Hk. apply (in_map fst) in I. exact I.
    + apply IH; assumption.
Qed.

(** Whether a [DTypeConfig] is one for dynamic quantization. *)
Definition dynamic (d : DTypeConfig) : bool :=
  match is_dynamic d with
  | Some true => true
  | _ => false
  end.

(** X11.  In every state of the module's names, each pattern config of
    the result is consistent: it names a root module exactly when it names
    a reference quantized module, and exactly when it names a QAT module;
    it names a fused module exactly when it has a fuser method, and only
    for a tuple pattern; and [_input_type_to_index] is set only for the
    functional patterns [F.linear] and [F.conv2d], as weight at 1 and bias
    at 2. *)
Theorem config_fields_consistent (g : Globals) :
  exists b,
    result get_executorch_backend_config g = Some b /\
    Forall
      (fun c =>
         (root_module c = None <-> reference_quantized_module c = None) /\
         (root_module c = None <-> qat_module c = None) /\
         (fused_module c = None <-> fuser_method c = None) /\
         (fused_module c <> None -> exists p q, pattern c = PTuple p q) /\
         (_input_type_to_index c <> [] ->
          (pattern c = PObj torch_nn_functional_linear \/
           pattern c = PObj F_conv2d) /\
          _input_type_to_index c = [("weight", 1%Z); ("bias", 2%Z)]))
      (PyDict.values (configs b)).
Proof.
  eexists. split; [reflexivity |].
  cbv -[In].
  repeat (apply Forall_cons || apply Forall_nil);
    (split; [| split; [| split; [| split]]]);
    first
      [ split; intros H; first [reflexivity | discriminate H]
      | intros N; exfalso; apply N; reflexivity
      | intros _; do 2 eexists; reflexivity
      | intros _; split; [(left; reflexivity) || (right; reflexivity)
                         | reflexivity] ].
Qed.

(** X12.  In every state of the module's names, looking up the pattern of
    any config produced by one of the six builders in the returned
    [BackendConfig] gives that very config: no config was replaced by a
    later one with the same pattern. *)
Theorem every_config_is_found (g : Globals) :
  exists b,
    result get_executorch_backend_config g = Some b /\
    forall m c,
      In m [ _get_linear_configs; _get_conv_configs; _get_binary_ops_configs;
             _get_share_qparams_ops_configs; _get_bn_configs; _get_cat_configs ] ->
      (exists cs, result m g = Some cs /\ In c cs) ->
      PyDict.lookup Pattern_eq_dec (pattern c) (configs b) = Some c.
Proof.
  eexists. split; [reflexivity |].
  intros m c Hm (cs & Hcs & Hc).
  apply lookup_of_entry.
  - cbv -[In]. repeat constructor; simpl; intuition discriminate.
  - assert (I : In c (PyDict.values
                        (match result get_executorch_backend_config g with
                         | Some b => configs b
                         | None => []
                         end))).
    { simpl in Hm.
      destruct Hm as [<- | [<- | [<- | [<- | [<- | [<- | []]]]]]];
        injection Hcs as <-; cbv -[In] in Hc |- *; simpl in Hc |- *; tauto. }
    clear Hm Hcs. cbv -[In] in I |- *. simpl in I |- *.
    repeat (destruct I as [<- | I]; [tauto |]). destruct I.
Qed.

(** X13.  Once the module is imported, dynamic quantization is offered for
    the linear patterns only: a pattern config of the returned
    [BackendConfig] lists a [DTypeConfig] with [is_dynamic=True] exactly
    when its pattern is [torch.nn.Linear] or [torch.nn.functional.linear]. *)
Theorem dynamic_only_for_linear :
  exists g b,
    module_globals = Some g /\
    result get_executorch_backend_config g = Some b /\
    Forall
      (fun c =>
         existsb dynamic (dtype_configs c) = true <->
         pattern c = PObj torch_nn_Linear \/
         pattern c = PObj torch_nn_functional_linear)
      (PyDict.values (configs b)).
Proof.
  eexists. eexists. split; [reflexivity |]. split; [reflexivity |].
  cbv -[In].
  repeat (apply Forall_cons || apply Forall_nil);
    (split; [intros E; (discriminate || tauto)
            | intros [E | E]; (discriminate || reflexivity)]).
Qed.

(** *** Runs on the small instance *)

(** X8 where no file can be opened. *)
Lemma main_stops_when_Dialect_raises_witness :
  result (@new_Dialect ToyModel (ToyGen toy_functions) "aten")
         {| files := fun _ => None; tabulate_installed := true |} = None /\
  result (@main ToyModel (ToyGen toy_functions))
         {| files := fun _ => None; tabulate_installed := true |} = None.
Proof.
  split; [reflexivity |].
  exact (proj1 (@main_stops_when_Dialect_raises ToyModel (ToyGen toy_functions)
                  {| files := fun _ => None; tabulate_installed := true |}
                  eq_refl)).
Defined.

(** X9 on the three functions of [toy_functions]. *)
Lemma main_output_in_order_witness :
  result (@main ToyModel (ToyGen toy_functions)) toy_world = Some tt /\
  tabulate_installed toy_world = true.
Proof.
  split; [reflexivity |].
  exact (proj1 (@main_output_in_order ToyModel (ToyGen toy_functions)
                  toy_world eq_refl)).
Defined.

(** X10 on a list with one function, which is not tagged. *)
Lemma nothing_canonical_witness :
  (forall f, In f [toy_relu_] -> @has_tag ToyModel "canonical" f = false) /\
  @canonical_ops ToyModel [toy_relu_] = [].
Proof.
  assert (H : forall f, In f [toy_relu_] -> @has_tag ToyModel "canonical" f = false).
  { intros f [<- | []]. reflexivity. }
  split; [exact H |].
  exact (proj1 (@nothing_canonical ToyModel [toy_relu_] [] [] "aten" H)).
Defined.

End MoreFacts.
